(** * ROV operations dashboard: telemetry generator and time-window filter

    A shallow embedding of [app.py].  The script is a linear Streamlit
    page: it builds a fixed mission record, generates a synthetic telemetry
    data frame, filters it by a time window chosen in the sidebar and
    renders the result.

    - numpy [float64] values are IEEE 754 binary64 numbers, taken from the
      standard library's executable specification [SpecFloat]
      (precision 53, maximal exponent 1024);
    - Python [datetime] values are counted in microseconds since
      0001-01-01T00:00:00, with Python's range check on arithmetic;
    - [np.random]'s global generator, [datetime.utcnow()], the sidebar radio
      button, the objects created by the script and the rendered page are
      the components of an explicit [world] threaded through a small
      state-and-exception monad. *)

From Stdlib Require Import ZArith List Lia Bool String.
From Stdlib Require Import Floats.SpecFloat.
Import ListNotations.

Open Scope string_scope.
Open Scope list_scope.
Open Scope Z_scope.

(* ================================================================== *)
(** * Python exceptions *)

Inductive exn : Type :=
| OverflowError
| ValueError
| IndexError
| TypeError.

Inductive result (A : Type) : Type :=
| Ok (a : A)
| Raise (e : exn).

Arguments Ok {A} a.
Arguments Raise {A} e.

Module Res.

Definition bind {A B : Type} (r : result A) (k : A -> result B) : result B :=
  match r with
  | Ok a => k a
  | Raise e => Raise e
  end.

(** A list comprehension whose body may raise: elements are evaluated
    left to right and the first exception aborts the comprehension. *)
Fixpoint mapM {A B : Type} (f : A -> result B) (l : list A) : result (list B) :=
  match l with
  | [] => Ok []
  | x :: l' =>
      bind (f x) (fun y => bind (mapM f l') (fun ys => Ok (y :: ys)))
  end.

End Res.

(** [range(n)]: the integers [0 .. n-1], empty when [n <= 0]. *)
Definition range (n : Z) : list Z := map Z.of_nat (seq 0 (Z.to_nat n)).

(* ================================================================== *)
(** * binary64 arithmetic and the numpy operations used by the generator *)

Module Float64.

Definition prec : Z := 53.
Definition emax : Z := 1024.

Definition float64 : Type := spec_float.

(** Conversion of a Python [int] (correctly rounded). *)
Definition of_int (z : Z) : float64 := binary_normalize prec emax z 0 false.

Definition add : float64 -> float64 -> float64 := SFadd prec emax.
Definition sub : float64 -> float64 -> float64 := SFsub prec emax.
Definition mul : float64 -> float64 -> float64 := SFmul prec emax.
Definition div : float64 -> float64 -> float64 := SFdiv prec emax.

Definition eqb : float64 -> float64 -> bool := SFeqb.
Definition ltb : float64 -> float64 -> bool := SFltb.
Definition leb : float64 -> float64 -> bool := SFleb.

Definition is_nan (x : float64) : bool :=
  match x with S754_nan => true | _ => false end.

Definition is_finite (x : float64) : bool :=
  match x with S754_zero _ | S754_finite _ _ _ => true | _ => false end.

Definition signbit (x : float64) : bool :=
  match x with
  | S754_zero s | S754_infinity s | S754_finite s _ _ => s
  | S754_nan => false
  end.

Definition zero : float64 := S754_zero false.

(** A decimal literal [n/d] of the source, e.g. [0.005] or [1.3]: the
    binary64 number nearest to the quotient. *)
Definition literal (n d : Z) : float64 := div (of_int n) (of_int d).

(** C's [fmod]: the exact remainder of the truncated division, with the
    sign of the dividend. *)
Definition fmod (x y : float64) : float64 :=
  match x, y with
  | S754_nan, _ | _, S754_nan => S754_nan
  | S754_infinity _, _ => S754_nan
  | _, S754_zero _ => S754_nan
  | S754_zero _, _ => x
  | S754_finite _ _ _, S754_infinity _ => x
  | S754_finite sx mx ex, S754_finite _ my ey =>
      let e := Z.min ex ey in
      let r := Z.rem (Zpos mx * 2 ^ (ex - e)) (Zpos my * 2 ^ (ey - e)) in
      binary_normalize prec emax (cond_Zopp sx r) e sx
  end.

(** numpy's [%] on floats ([npy_remainder], through [npy_divmod]):
    [fmod], then moved to the sign of the divisor by adding the divisor. *)
Definition np_remainder (a b : float64) : float64 :=
  let md := fmod a b in
  if eqb b zero then md
  else if negb (eqb md zero) then
    if xorb (ltb b zero) (ltb md zero) then add md b else md
  else S754_zero (signbit b).

(** [np.clip] on floats: [min(max(x, lo), hi)] where both [max] and [min]
    return their first argument when it is a NaN. *)
Definition np_maximum (a b : float64) : float64 :=
  if is_nan a then a else if ltb b a then a else b.

Definition np_minimum (a b : float64) : float64 :=
  if is_nan a then a else if ltb a b then a else b.

Definition np_clip (x lo hi : float64) : float64 :=
  np_minimum (np_maximum x lo) hi.

(** [np.cumsum]: sequential accumulation, the first entry is the first
    element itself. *)
Fixpoint cumsum_from (acc : float64) (l : list float64) : list float64 :=
  match l with
  | [] => []
  | x :: l' => let acc' := add acc x in acc' :: cumsum_from acc' l'
  end.

Definition np_cumsum (l : list float64) : list float64 :=
  match l with
  | [] => []
  | x :: l' => x :: cumsum_from x l'
  end.

(** Elementwise operation on two arrays of the same shape. *)
Definition map2 (f : float64 -> float64 -> float64)
           (a b : list float64) : list float64 :=
  map (fun xy => f (fst xy) (snd xy)) (combine a b).

(** [y[-1] = v] *)
Definition set_last (y : list float64) (v : float64) : list float64 :=
  match y with
  | [] => []
  | _ => removelast y ++ [v]
  end.

(** [np.linspace(start, stop, num)] with the default [endpoint=True]. *)
Definition np_linspace (start stop : float64) (num : Z)
  : result (list float64) :=
  if num <? 0 then Raise ValueError
  else
    let dv := num - 1 in
    let y := map of_int (range num) in
    let delta := sub stop start in
    let y :=
      if 0 <? dv then
        let step := div delta (of_int dv) in
        if eqb step zero
        then map (fun v => mul (div v (of_int dv)) delta) y
        else map (fun v => mul v step) y
      else map (fun v => mul v delta) y in
    let y := map (fun v => add v start) y in
    Ok (if 1 <? num then set_last y stop else y).

End Float64.

Import Float64.

(* ================================================================== *)
(** * Python's [datetime] and [timedelta] *)

Module Datetime.

(** Microseconds since [datetime.min] = 0001-01-01T00:00:00. *)
Definition datetime : Type := Z.
(** A duration in microseconds. *)
Definition timedelta : Type := Z.

Definition us_per_minute : Z := 60000000.
Definition us_per_day : Z := 86400000000.

(** [datetime.max] = 9999-12-31T23:59:59.999999 *)
Definition datetime_max : datetime := 315537897599999999.

Definition valid (t : datetime) : bool :=
  (0 <=? t) && (t <=? datetime_max).

(** [timedelta] holds between -999999999 and 999999999 days. *)
Definition timedelta_valid (d : timedelta) : bool :=
  (-999999999 <=? d / us_per_day) && (d / us_per_day <=? 999999999).

(** [timedelta(minutes=m)] *)
Definition of_minutes (m : Z) : result timedelta :=
  let d := m * us_per_minute in
  if timedelta_valid d then Ok d else Raise OverflowError.

(** [timedelta(hours=h, minutes=m)] *)
Definition of_hours_minutes (h m : Z) : result timedelta :=
  let d := (h * 60 + m) * us_per_minute in
  if timedelta_valid d then Ok d else Raise OverflowError.

(** [t - d] on a [datetime]: "date value out of range" outside
    [datetime.min .. datetime.max]. *)
Definition minus (t : datetime) (d : timedelta) : result datetime :=
  if valid (t - d) then Ok (t - d) else Raise OverflowError.

End Datetime.

(* ================================================================== *)
(** * Data model *)

(** One row of the telemetry data frame. *)
Record TelemetrySample : Type := {
  timestamp : Z;
  depth_m : float64;
  temperature_c : float64;
  pressure_kpa : float64;
  power_pct : float64;
  heading_deg : float64;
  speed_knots : float64
}.

(** A data frame with the seven telemetry columns, as its sequence of rows. *)
Definition DataFrame : Type := list TelemetrySample.

Record MissionStatus : Type := {
  mission_name : string;
  objective : string;
  location : string;
  pilot : string;
  supervisor : string;
  start_time : Datetime.datetime;
  status : string;
  notes : string
}.

(** The choices of the sidebar radio button, in the order of the keys of
    [time_options]. *)
Inductive time_range : Type :=
| Last_30_minutes
| Last_1_hour
| Last_3_hours
| Last_6_hours
| All_data.

(** ** Rendered output

    Formatted strings keep the value and the format specification apart:
    [f"{x:,.0f} m"] is [[FmtFloat ",.0f" x; Lit " m"]]. *)

Inductive piece : Type :=
| Lit (s : string)
| FmtFloat (spec : string) (x : float64)
| FmtInt (z : Z)
| FmtTime (spec : string) (t : Z).

Definition text : Type := list piece.

(** A row of the table shown at the bottom of the page: the timestamp
    formatted as text, the other columns as they are. *)
Definition TableRow : Type := (text * TelemetrySample)%type.

Inductive widget : Type :=
| PageConfig (page_title : string)
| SidebarHeader (s : string)
| SidebarRadio (label : string) (options : list string) (index : nat)
| SidebarMarkdown (s : string)
| SidebarWrite (s : string)
| Title (s : string)
| Caption (s : string)
| Expander (label : string) (expanded : bool)
| Metric (column : nat) (label : string) (value : text) (delta : option text)
| Markdown (body : text)
| Subheader (s : string)
| Tabs (labels : list string)
| LineChart (tab : nat) (title : string) (points : list (Z * float64))
| Gauge (title : string) (value : float64)
| PolarScatter (title : string) (points : list (float64 * float64))
| Table (columns : list string) (rows : list TableRow).

(** ** Objects and the world *)

Inductive object : Type :=
| FrameObj (df : DataFrame)
| MissionObj (m : MissionStatus)
| TableObj (columns : list string) (rows : list TableRow).

Definition ref : Type := nat.

Record world : Type := {
  (** successive values returned by [datetime.utcnow()] *)
  utc_clock : nat -> Datetime.datetime;
  clock_reads : nat;
  (** standard normal variates delivered by [np.random]'s global generator *)
  gauss_tape : nat -> float64;
  gauss_drawn : nat;
  (** the choice currently made in the sidebar radio button *)
  radio_choice : time_range;
  (** the objects created so far; a reference is an index *)
  heap : list object;
  (** the widgets rendered so far, oldest first *)
  page : list widget
}.

Definition set_clock_reads (n : nat) (w : world) : world :=
  {| utc_clock := utc_clock w; clock_reads := n;
     gauss_tape := gauss_tape w; gauss_drawn := gauss_drawn w;
     radio_choice := radio_choice w; heap := heap w; page := page w |}.

Definition set_gauss_drawn (n : nat) (w : world) : world :=
  {| utc_clock := utc_clock w; clock_reads := clock_reads w;
     gauss_tape := gauss_tape w; gauss_drawn := n;
     radio_choice := radio_choice w; heap := heap w; page := page w |}.

Definition set_radio_choice (c : time_range) (w : world) : world :=
  {| utc_clock := utc_clock w; clock_reads := clock_reads w;
     gauss_tape := gauss_tape w; gauss_drawn := gauss_drawn w;
     radio_choice := c; heap := heap w; page := page w |}.

Definition set_heap (h : list object) (w : world) : world :=
  {| utc_clock := utc_clock w; clock_reads := clock_reads w;
     gauss_tape := gauss_tape w; gauss_drawn := gauss_drawn w;
     radio_choice := radio_choice w; heap := h; page := page w |}.

Definition set_page (p : list widget) (w : world) : world :=
  {| utc_clock := utc_clock w; clock_reads := clock_reads w;
     gauss_tape := gauss_tape w; gauss_drawn := gauss_drawn w;
     radio_choice := radio_choice w; heap := heap w; page := p |}.

(** ** The monad of the script: state, and exceptions that keep the state *)

Definition M (A : Type) : Type := world -> result A * world.

Definition ret {A : Type} (a : A) : M A := fun w => (Ok a, w).

Definition bind {A B : Type} (c : M A) (k : A -> M B) : M B :=
  fun w =>
    match c w with
    | (Ok a, w') => k a w'
    | (Raise e, w') => (Raise e, w')
    end.

Definition lift {A : Type} (r : result A) : M A := fun w => (r, w).

Declare Scope script_scope.
Delimit Scope script_scope with script.
Notation "x <- c ;; k" := (bind c (fun x => k))
  (at level 61, c at next level, right associativity) : script_scope.
Notation "c ;; k" := (bind c (fun _ => k))
  (at level 61, right associativity) : script_scope.
Open Scope script_scope.

(** [datetime.utcnow()] *)
Definition utcnow : M Datetime.datetime :=
  fun w => (Ok (utc_clock w (clock_reads w)),
            set_clock_reads (S (clock_reads w)) w).

(** [np.random.normal(loc, scale, size)]: [size] fresh variates, each
    turned into [loc + scale * g]. *)
Definition np_random_normal (loc scale : float64) (size : Z)
  : M (list float64) :=
  fun w =>
    if size <? 0 then (Raise ValueError, w)
    else
      let n := Z.to_nat size in
      (Ok (map (fun k => add loc (mul scale (gauss_tape w (gauss_drawn w + k)%nat)))
               (seq 0 n)),
       set_gauss_drawn (gauss_drawn w + n)%nat w).

(** Creation of a new object. *)
Definition alloc (o : object) : M ref :=
  fun w => (Ok (List.length (heap w)), set_heap (heap w ++ [o]) w).

Definition deref (r : ref) : M object :=
  fun w =>
    match nth_error (heap w) r with
    | Some o => (Ok o, w)
    | None => (Raise TypeError, w)
    end.

Definition frame_of (r : ref) : M DataFrame :=
  o <- deref r ;;
  match o with
  | FrameObj df => ret df
  | _ => lift (Raise TypeError)
  end.

Definition mission_of (r : ref) : M MissionStatus :=
  o <- deref r ;;
  match o with
  | MissionObj m => ret m
  | _ => lift (Raise TypeError)
  end.

(** In-place update of the object behind a reference. *)
Fixpoint list_set {A : Type} (l : list A) (i : nat) (x : A) : list A :=
  match l, i with
  | [], _ => []
  | _ :: l', O => x :: l'
  | y :: l', S i' => y :: list_set l' i' x
  end.

Definition store (r : ref) (o : object) : M unit :=
  fun w => (Ok tt, set_heap (list_set (heap w) r o) w).

(** A Streamlit call that renders a widget. *)
Definition emit (wd : widget) : M unit :=
  fun w => (Ok tt, set_page (page w ++ [wd]) w).

(* ================================================================== *)
(** * The telemetry generator *)

(** Row [i] of a frame built from its columns. *)
Definition row_at (ts : list Z) (d t p pw h sp : list float64) (i : nat)
  : TelemetrySample :=
  {| timestamp := nth i ts 0;
     depth_m := nth i d S754_nan;
     temperature_c := nth i t S754_nan;
     pressure_kpa := nth i p S754_nan;
     power_pct := nth i pw S754_nan;
     heading_deg := nth i h S754_nan;
     speed_knots := nth i sp S754_nan |}.

(** [pd.DataFrame({...})]: the columns must have one length. *)
Definition pd_DataFrame (ts : list Z) (d t p pw h sp : list float64)
  : result DataFrame :=
  let n := List.length ts in
  if forallb (Nat.eqb n)
       [List.length d; List.length t; List.length p;
        List.length pw; List.length h; List.length sp]
  then Ok (map (row_at ts d t p pw h sp) (seq 0 n))
  else Raise ValueError.

Definition _generate_sample_data (num_records : Z) : M ref :=
  now <- utcnow ;;
  stamps <- lift (Res.mapM
                    (fun i => Res.bind (Datetime.of_minutes (5 * i))
                                       (Datetime.minus now))
                    (range num_records)) ;;
  let timestamps := rev stamps in
  ramp <- lift (np_linspace (of_int 100) (of_int 350) num_records) ;;
  noise <- np_random_normal (of_int 0) (of_int 8) num_records ;;
  let base_depth := map2 add ramp noise in
  noise <- np_random_normal (of_int 0) (literal 2 10) num_records ;;
  let base_temperature :=
    map2 add
      (map (fun i => add (of_int 4) (mul (literal 5 1000) (of_int i)))
           (range num_records))
      noise in
  noise <- np_random_normal (of_int 0) (of_int 5) num_records ;;
  let base_pressure := map2 add (map (mul (literal 13 10)) base_depth) noise in
  noise <- np_random_normal (of_int 0) (of_int 4) num_records ;;
  let power :=
    map (fun x => np_clip (add (of_int 75) x) (of_int 60) (of_int 95)) noise in
  steps <- np_random_normal (of_int 0) (literal 15 10) num_records ;;
  let heading :=
    map (fun c => np_remainder (add (of_int 180) c) (of_int 360))
        (np_cumsum steps) in
  noise <- np_random_normal (of_int 0) (literal 3 10) num_records ;;
  let speed :=
    map (fun x => np_clip (add (literal 25 10) x) (literal 10 10) (literal 35 10))
        noise in
  df <- lift (pd_DataFrame timestamps base_depth base_temperature
                           base_pressure power heading speed) ;;
  alloc (FrameObj df).

(* ================================================================== *)
(** * Module-level state *)

(** The initialiser of the global [MISSION]. *)
Definition MISSION : M ref :=
  now <- utcnow ;;
  start <- lift (Res.bind (Datetime.of_hours_minutes 3 27)
                          (Datetime.minus now)) ;;
  alloc (MissionObj
           {| mission_name := "Poseidon-7 Survey";
              objective := "Map subsea pipeline integrity and capture HD imagery";
              location := "North Sea Block 15";
              pilot := "Casey Morgan";
              supervisor := "Lt. Priya Desai";
              start_time := start;
              status := "Active";
              notes := "Monitoring cross-current turbulence; maintain depth < 350m." |}).

(** The initialiser of the global [telemetry_df]. *)
Definition telemetry_df : M ref := _generate_sample_data 120.

(* ================================================================== *)
(** * The time-window filter *)

Definition time_range_keys : list time_range :=
  [Last_30_minutes; Last_1_hour; Last_3_hours; Last_6_hours; All_data].

Definition key_label (k : time_range) : string :=
  match k with
  | Last_30_minutes => "Last 30 minutes"
  | Last_1_hour => "Last 1 hour"
  | Last_3_hours => "Last 3 hours"
  | Last_6_hours => "Last 6 hours"
  | All_data => "All data"
  end.

Definition time_options (k : time_range) : option Z :=
  match k with
  | Last_30_minutes => Some 30
  | Last_1_hour => Some 60
  | Last_3_hours => Some 180
  | Last_6_hours => Some 360
  | All_data => None
  end.

(** [st.sidebar.radio(label, options, index)]: renders the widget and
    returns the current choice of the user. *)
Definition sidebar_radio (label : string) (options : list time_range)
           (index : nat) : M time_range :=
  emit (SidebarRadio label (map key_label options) index) ;;
  fun w => (Ok (radio_choice w), w).

(** [df["timestamp"].max()]: [None] is pandas' [NaT], the maximum of an
    empty column. *)
Definition timestamp_max (df : DataFrame) : option Z :=
  match df with
  | [] => None
  | s :: df' => Some (fold_left Z.max (map timestamp df') (timestamp s))
  end.

(** One entry of the mask [df["timestamp"] >= cutoff]; a comparison with
    [NaT] is false. *)
Definition at_or_after (cutoff : option Z) (s : TelemetrySample) : bool :=
  match cutoff with
  | Some c => c <=? timestamp s
  | None => false
  end.

(** The body of [sidebar_filters] from [if minutes is None] on, as a
    function of [minutes].  The left operand [df["timestamp"].max()] is
    evaluated first, then [timedelta(minutes=minutes)], which raises
    [OverflowError] outside the range of [timedelta]; the subtraction and the
    comparison are on the instants of the pandas column. *)
Definition filter_by_minutes (minutes : option Z) (df : ref) : M ref :=
  match minutes with
  | None => ret df
  | Some m =>
      frame <- frame_of df ;;
      let latest := timestamp_max frame in
      window <- lift (Datetime.of_minutes m) ;;
      let cutoff := option_map (fun t => t - window) latest in
      alloc (FrameObj (filter (at_or_after cutoff) frame))
  end.

Definition sidebar_filters (df : ref) : M ref :=
  emit (SidebarHeader "Filters") ;;
  selection <- sidebar_radio "Time range" time_range_keys 2 ;;
  let minutes := time_options selection in
  filter_by_minutes minutes df.

(* ================================================================== *)
(** * Rendering *)

(** [df.iloc[i]] for one integer position; negative positions count from
    the end. *)
Definition iloc (df : DataFrame) (i : Z) : result TelemetrySample :=
  let n := Z.of_nat (List.length df) in
  let j := if i <? 0 then n + i else i in
  if (0 <=? j) && (j <? n) then
    match nth_error df (Z.to_nat j) with
    | Some s => Ok s
    | None => Raise IndexError
    end
  else Raise IndexError.

(** [df.tail(n)] *)
Definition tail {A : Type} (n : nat) (l : list A) : list A :=
  skipn (List.length l - n) l.

(** [timedelta.seconds]: the seconds within the day of a normalised
    duration. *)
Definition timedelta_seconds (d : Datetime.timedelta) : Z :=
  (d mod Datetime.us_per_day) / 1000000.

Definition mission_overview (status_ : ref) (df : ref) : M unit :=
  emit (Title "ROV Operations Dashboard") ;;
  emit (Caption "Live operations overview with synthetic telemetry for demonstration.") ;;
  emit (Expander "Mission Details" true) ;;
  st <- mission_of status_ ;;
  emit (Metric 0 "Mission" [Lit (mission_name st)] None) ;;
  emit (Metric 1 "Status" [Lit (status st)] None) ;;
  now <- utcnow ;;
  let elapsed := timedelta_seconds (now - start_time st) in
  emit (Metric 2 "Elapsed Time"
               [FmtInt (elapsed / 3600); Lit "h ";
                FmtInt ((elapsed mod 3600) / 60); Lit "m"] None) ;;
  emit (Metric 3 "Pilot" [Lit (pilot st)] None) ;;
  emit (Markdown [Lit "**Objective:** "; Lit (objective st);
                  Lit "**Location:** "; Lit (location st);
                  Lit "**Supervisor:** "; Lit (supervisor st);
                  Lit "**Notes:** "; Lit (notes st)]) ;;
  frame <- frame_of df ;;
  latest <- lift (iloc frame (-1)) ;;
  previous <- lift (iloc frame (-2)) ;;
  emit (Metric 0 "Depth"
               [FmtFloat ",.0f" (depth_m latest); Lit " m"]
               (Some [FmtFloat "+.1f" (sub (depth_m latest) (depth_m previous));
                      Lit " m"])) ;;
  previous <- lift (iloc frame (-2)) ;;
  emit (Metric 1 "Temperature"
               [FmtFloat ".1f" (temperature_c latest); Lit " °C"]
               (Some [FmtFloat "+.2f"
                               (sub (temperature_c latest) (temperature_c previous));
                      Lit " °C"])) ;;
  emit (Metric 2 "Pressure"
               [FmtFloat ",.0f" (pressure_kpa latest); Lit " kPa"] None) ;;
  previous <- lift (iloc frame (-2)) ;;
  emit (Metric 3 "Power Reserve"
               [FmtFloat ".0f" (power_pct latest); Lit "%"]
               (Some [FmtFloat "+.1f" (sub (power_pct latest) (power_pct previous));
                      Lit "%"])).

Definition plot_timeseries (df : ref) : M unit :=
  emit (Subheader "Telemetry Trends") ;;
  emit (Tabs ["Depth"; "Temperature"; "Pressure"]) ;;
  frame <- frame_of df ;;
  emit (LineChart 0 "Depth over Time"
                  (map (fun s => (timestamp s, depth_m s)) frame)) ;;
  emit (LineChart 1 "Temperature over Time"
                  (map (fun s => (timestamp s, temperature_c s)) frame)) ;;
  emit (LineChart 2 "Pressure over Time"
                  (map (fun s => (timestamp s, pressure_kpa s)) frame)).

Definition engineering_panel (df : ref) : M unit :=
  emit (Subheader "Engineering Snapshot") ;;
  frame <- frame_of df ;;
  latest <- lift (iloc frame (-1)) ;;
  emit (Gauge "Power Reserve" (power_pct latest)) ;;
  emit (PolarScatter "Heading & Speed (last 60 samples)"
                     (map (fun s => (speed_knots s, heading_deg s))
                          (tail 60 frame))).

Definition frame_columns : list string :=
  ["timestamp"; "depth_m"; "temperature_c"; "pressure_kpa";
   "power_pct"; "heading_deg"; "speed_knots"].

Definition table_columns : list string :=
  ["Timestamp"; "Depth (m)"; "Temperature (°C)"; "Pressure (kPa)";
   "Power (%)"; "Heading (°)"; "Speed (kn)"].

Definition telemetry_table (df : ref) : M unit :=
  emit (Subheader "Telemetry Table") ;;
  frame <- frame_of df ;;
  formatted_df <- alloc (FrameObj frame) ;;
  let rows := map (fun s => ([FmtTime "%Y-%m-%d %H:%M" (timestamp s)], s)) frame in
  store formatted_df (TableObj frame_columns rows) ;;
  store formatted_df (TableObj table_columns rows) ;;
  emit (Table table_columns (rev (tail 50 rows))).

(* ================================================================== *)
(** * The script *)

Record globals : Type := {
  g_MISSION : ref;
  g_telemetry_df : ref;
  g_filtered_df : ref
}.

Definition script : M globals :=
  emit (PageConfig "ROV Operations Dashboard") ;;
  mission <- MISSION ;;
  telemetry <- telemetry_df ;;
  filtered_df <- sidebar_filters telemetry ;;
  mission_overview mission filtered_df ;;
  plot_timeseries filtered_df ;;
  engineering_panel filtered_df ;;
  telemetry_table filtered_df ;;
  emit (SidebarMarkdown "---") ;;
  emit (SidebarWrite "This dashboard uses synthetic data for demonstration. Replace the data generation logic with live telemetry integration for production use.") ;;
  ret {| g_MISSION := mission;
         g_telemetry_df := telemetry;
         g_filtered_df := filtered_df |}.

(* ================================================================== *)
(** * Vocabulary of the statements *)

(** The data frame behind a reference, if there is one. *)
Definition frame_at (w : world) (r : ref) : option DataFrame :=
  match nth_error (heap w) r with
  | Some (FrameObj df) => Some df
  | _ => None
  end.

(** The mission record behind a reference, if there is one. *)
Definition mission_at (w : world) (r : ref) : option MissionStatus :=
  match nth_error (heap w) r with
  | Some (MissionObj m) => Some m
  | _ => None
  end.

(** [t] is the maximum timestamp of the series. *)
Definition latest_instant (df : DataFrame) (t : Z) : Prop :=
  In t (map timestamp df) /\ forall s, In s df -> timestamp s <= t.

(** [l1] is [l2] with some elements left out: same order, nothing repeated. *)
Inductive subseq {A : Type} : list A -> list A -> Prop :=
| subseq_nil : subseq [] []
| subseq_skip (x : A) (l1 l2 : list A) : subseq l1 l2 -> subseq l1 (x :: l2)
| subseq_keep (x : A) (l1 l2 : list A) : subseq l1 l2 -> subseq (x :: l1) (x :: l2).

(** No object that exists in [w] is changed in [w']. *)
Definition objects_kept (w w' : world) : Prop :=
  forall r o, nth_error (heap w) r = Some o -> nth_error (heap w') r = Some o.

(** [k2] selects a window at least as wide as [k1]. *)
Definition wider_or_same (k1 k2 : time_range) : Prop :=
  match time_options k1, time_options k2 with
  | _, None => True
  | None, Some _ => False
  | Some m1, Some m2 => m1 <= m2
  end.

(** The numbers of minutes that [timedelta(minutes=m)] accepts: at most
    999999999 days in either direction. *)
Definition timedelta_minutes_ok (m : Z) : Prop :=
  -1439999998560 <= m < 1440000000000.

(** Five minutes, in microseconds. *)
Definition stride : Z := 5 * Datetime.us_per_minute.

(** The rows kept by [filter_by_minutes (Some m)]. *)
Definition window_rows (m : Z) (df : DataFrame) : DataFrame :=
  filter (at_or_after (option_map (fun t => t - m * Datetime.us_per_minute)
                                  (timestamp_max df)))
         df.

(** What [sidebar_filters] has rendered when it reaches the filter. *)
Definition sidebar_rendered (w : world) : world :=
  set_page ((page w ++ [SidebarHeader "Filters"])
              ++ [SidebarRadio "Time range" (map key_label time_range_keys) 2])
           w.

(* ================================================================== *)
(** * Sample inputs *)

Module Demo.

(** 2026-11-03T00:00:00 *)
Definition midnight : Z := 63929260800000000.

Definition sample (t : Z) : TelemetrySample :=
  {| timestamp := t;
     depth_m := of_int 200;
     temperature_c := of_int 4;
     pressure_kpa := of_int 260;
     power_pct := of_int 75;
     heading_deg := of_int 180;
     speed_knots := literal 25 10 |}.

(** [n] samples five minutes apart, the newest at [midnight]. *)
Definition series (n : Z) : DataFrame :=
  map (fun i => sample (midnight - (n - 1 - i) * stride)) (range n).

(** Every variate of the generator is [-1]. *)
Definition steady_tape : nat -> float64 :=
  fun _ => S754_finite true 4503599627370496 (-52).

(** Every variate is [-1], except variate 599, which is
    [-(1 + 85 * 2^-52)], about -1.0000000000000189. *)
Definition edge_tape : nat -> float64 :=
  fun k => if Nat.eqb k 599
           then S754_finite true 4503599627370581 (-52)
           else S754_finite true 4503599627370496 (-52).

(** The world at the start of the script with the tape [edge_tape]. *)
Definition edge_world : world :=
  {| utc_clock := fun _ => midnight; clock_reads := 0;
     gauss_tape := edge_tape; gauss_drawn := 0;
     radio_choice := Last_3_hours; heap := []; page := [] |}.

(** A mission record as the script builds it, started at [midnight]. *)
Definition mission : MissionStatus :=
  {| mission_name := "Poseidon-7 Survey";
     objective := "Map subsea pipeline integrity and capture HD imagery";
     location := "North Sea Block 15";
     pilot := "Casey Morgan";
     supervisor := "Lt. Priya Desai";
     start_time := midnight;
     status := "Active";
     notes := "Monitoring cross-current turbulence; maintain depth < 350m." |}.

(** A world in which [objs] exist and the user has chosen [k]. *)
Definition world_of (objs : list object) (k : time_range) : world :=
  {| utc_clock := fun _ => midnight; clock_reads := 0;
     gauss_tape := steady_tape; gauss_drawn := 0;
     radio_choice := k; heap := objs; page := [] |}.

End Demo.

(** The timestamp computed by the generator for index [i] of its
    comprehension. *)
Definition stamp (now : Datetime.datetime) (i : Z) : result Datetime.datetime :=
  Res.bind (Datetime.of_minutes (5 * i)) (Datetime.minus now).

(** The array returned by a call [np.random.normal(0, scale, n)] that finds
    the generator at position [first] of its tape. *)
Definition normal_draws (w : world) (first : nat) (scale : float64) (n : nat)
  : list float64 :=
  map (fun k => add (of_int 0) (mul scale (gauss_tape w (first + k)%nat)))
      (seq 0 n).

(** The frame assembled by [_generate_sample_data num_records] in [w] from
    the timestamps [stamps] of its comprehension and the ramp [ramp] of
    [np.linspace]. *)
Definition generated_frame (num_records : Z) (w : world)
           (stamps : list Z) (ramp : list float64) : DataFrame :=
  let n := Z.to_nat num_records in
  let p := gauss_drawn w in
  let base_depth := map2 add ramp (normal_draws w p (of_int 8) n) in
  map (row_at
         (rev stamps)
         base_depth
         (map2 add
               (map (fun i => add (of_int 4) (mul (literal 5 1000) (of_int i)))
                    (range num_records))
               (normal_draws w (p + n) (literal 2 10) n))
         (map2 add (map (mul (literal 13 10)) base_depth)
               (normal_draws w (p + n + n) (of_int 5) n))
         (map (fun x => np_clip (add (of_int 75) x) (of_int 60) (of_int 95))
              (normal_draws w (p + n + n + n) (of_int 4) n))
         (map (fun c => np_remainder (add (of_int 180) c) (of_int 360))
              (np_cumsum (normal_draws w (p + n + n + n + n) (literal 15 10) n)))
         (map (fun x => np_clip (add (literal 25 10) x)
                                (literal 10 10) (literal 35 10))
              (normal_draws w (p + n + n + n + n + n) (literal 3 10) n)))
      (seq 0 (List.length (rev stamps))).

(** The world after a successful call of the generator. *)
Definition generated_world (num_records : Z) (w : world) (df : DataFrame)
  : world :=
  let n := Z.to_nat num_records in
  set_heap (heap w ++ [FrameObj df])
    (set_gauss_drawn (gauss_drawn w + n + n + n + n + n + n)%nat
       (set_clock_reads (S (clock_reads w)) w)).

(** 360.0 *)
Definition f360 : float64 := S754_finite false 6333186975989760 (-44).

(** [x] is a zero of sign [s], or a finite number of sign [s] and of
    magnitude at most 360 (written with the exponent of the number: 360 is
    [45 * 2 ^ 3]). *)
Definition below_360 (s : bool) (x : float64) : Prop :=
  match x with
  | S754_zero s' => s' = s
  | S754_finite s' m e => s' = s /\ e <= -44 /\ Zpos m <= 45 * 2 ^ (3 - e)
  | _ => False
  end.

(** The value of [np.cumsum(steps)] at index [i]: the steps up to [i],
    added from the left. *)
Definition running_sum (steps : list float64) (i : nat) : float64 :=
  match firstn (S i) steps with
  | [] => S754_nan
  | d :: rest => fold_left add rest d
  end.

(** The array of heading steps drawn by [_generate_sample_data num_records]
    in [w]: the fifth call of [np.random.normal], with scale 1.5. *)
Definition heading_steps (num_records : Z) (w : world) : list float64 :=
  let n := Z.to_nat num_records in
  normal_draws w (gauss_drawn w + n + n + n + n)%nat (literal 15 10) n.

(** Row [i] of the frame that [_generate_sample_data num_records] returns
    in [w], if it returns one. *)
Definition generated_row (num_records : Z) (w : world) (i : nat)
  : option TelemetrySample :=
  match _generate_sample_data num_records w with
  | (Ok r, w') =>
      match frame_at w' r with
      | Some df => nth_error df i
      | None => None
      end
  | (Raise _, _) => None
  end.

(** The computation [c] neither changes nor creates a mission record. *)
Definition missions_fixed {A : Type} (c : M A) : Prop :=
  forall w r, mission_at (snd (c w)) r = mission_at w r.

(** The computation [c] changes no object that exists when it starts. *)
Definition keeps_objects {A : Type} (c : M A) : Prop :=
  forall w, objects_kept w (snd (c w)).

(* ==== Theorems ==== *)

(* ================================================================== *)
(** * Lists *)

Section ListFacts.

Context {A : Type}.

Lemma subseq_refl (l : list A) : subseq l l.
Proof. induction l; constructor; assumption. Qed.

Lemma subseq_filter (p : A -> bool) (l : list A) : subseq (filter p l) l.
Proof.
  induction l as [|x l IH]; simpl.
  - constructor.
  - destruct (p x); constructor; assumption.
Qed.

Lemma filter_all (p : A -> bool) (l : list A) :
  (forall x, In x l -> p x = true) -> filter p l = l.
Proof.
  induction l as [|x l IH]; simpl; intros H; [reflexivity|].
  rewrite (H x (or_introl eq_refl)). f_equal. apply IH.
  intros y Hy. apply H. right. exact Hy.
Qed.

Lemma filter_none (p : A -> bool) (l : list A) :
  (forall x, In x l -> p x = false) -> filter p l = [].
Proof.
  induction l as [|x l IH]; simpl; intros H; [reflexivity|].
  rewrite (H x (or_introl eq_refl)). apply IH.
  intros y Hy. apply H. right. exact Hy.
Qed.


End ListFacts.

(* ================================================================== *)
(** * The maximum of the timestamp column *)

Lemma fold_max_ge (l : list Z) (a : Z) : a <= fold_left Z.max l a.
Proof.
  revert a. induction l as [|x l IH]; simpl; intros a; [lia|].
  specialize (IH (Z.max a x)). lia.
Qed.

Lemma fold_max_upper (l : list Z) (a x : Z) :
  In x l -> x <= fold_left Z.max l a.
Proof.
  revert a. induction l as [|y l IH]; simpl; intros a H; [contradiction|].
  destruct H as [H|H].
  - subst y. pose proof (fold_max_ge l (Z.max a x)). lia.
  - apply IH, H.
Qed.

Lemma fold_max_in (l : list Z) (a : Z) :
  fold_left Z.max l a = a \/ In (fold_left Z.max l a) l.
Proof.
  revert a. induction l as [|y l IH]; simpl; intros a; [left; reflexivity|].
  destruct (IH (Z.max a y)) as [H|H].
  - rewrite H. destruct (Z.max_spec a y) as [[_ E]|[_ E]]; rewrite E; auto.
  - right. right. exact H.
Qed.

Lemma latest_instant_unique (df : DataFrame) (t t' : Z) :
  latest_instant df t -> latest_instant df t' -> t = t'.
Proof.
  intros [Hin Hub] [Hin' Hub'].
  apply in_map_iff in Hin as [s [<- Hs]].
  apply in_map_iff in Hin' as [s' [<- Hs']].
  specialize (Hub _ Hs'). specialize (Hub' _ Hs). lia.
Qed.

Lemma timestamp_max_latest (df : DataFrame) (t : Z) :
  timestamp_max df = Some t <-> latest_instant df t.
Proof.
  assert (Hfwd : forall u, timestamp_max df = Some u -> latest_instant df u).
  { intros u H. destruct df as [|s df]; simpl in H; [discriminate|].
    injection H as <-. split.
    - simpl. destruct (fold_max_in (map timestamp df) (timestamp s)) as [E|E].
      + left. symmetry. exact E.
      + right. exact E.
    - intros x [<-|Hx].
      + apply fold_max_ge.
      + apply fold_max_upper. apply in_map. exact Hx. }
  split; [apply Hfwd|].
  intros H. destruct (timestamp_max df) as [u|] eqn:E.
  - f_equal. apply (latest_instant_unique df); [apply Hfwd; reflexivity | exact H].
  - destruct df; [destruct H as [H _]; simpl in H; contradiction | discriminate].
Qed.

Lemma timestamp_max_nonempty (df : DataFrame) :
  df <> [] -> exists t, timestamp_max df = Some t.
Proof. destruct df; [congruence|]. intros _. eexists. reflexivity. Qed.

(* ================================================================== *)
(** * Running the filter *)

Lemma frame_at_alloc (w : world) (o : object) (r : ref) (df : DataFrame) :
  frame_at w r = Some df ->
  frame_at (set_heap (heap w ++ [o]) w) r = Some df.
Proof.
  unfold frame_at. simpl. intros H.
  destruct (nth_error (heap w) r) as [o'|] eqn:E; [|discriminate].
  rewrite nth_error_app1; [rewrite E; exact H|].
  apply nth_error_Some. congruence.
Qed.

Lemma frame_at_new (w : world) (df : DataFrame) :
  frame_at (set_heap (heap w ++ [FrameObj df]) w) (List.length (heap w)) = Some df.
Proof.
  unfold frame_at. simpl.
  rewrite nth_error_app2, Nat.sub_diag; [reflexivity | apply Nat.le_refl].
Qed.

Lemma objects_kept_alloc (w : world) (o : object) :
  objects_kept w (set_heap (heap w ++ [o]) w).
Proof.
  intros r o' H. simpl. rewrite nth_error_app1; [exact H|].
  apply nth_error_Some. congruence.
Qed.

Lemma of_minutes_ok (m : Z) :
  timedelta_minutes_ok m ->
  Datetime.of_minutes m = Ok (m * Datetime.us_per_minute).
Proof.
  intros [Hlo Hhi]. unfold Datetime.of_minutes, Datetime.timedelta_valid.
  unfold Datetime.us_per_minute, Datetime.us_per_day.
  assert (H1 : -999999999 <= m * 60000000 / 86400000000)
    by (apply Z.div_le_lower_bound; lia).
  assert (H2 : m * 60000000 / 86400000000 < 1000000000)
    by (apply Z.div_lt_upper_bound; lia).
  apply Z.leb_le in H1. rewrite H1.
  assert (H3 : m * 60000000 / 86400000000 <= 999999999) by lia.
  apply Z.leb_le in H3. rewrite H3. reflexivity.
Qed.


Lemma selectable_minutes_ok (W : Z) :
  In W [30; 60; 180; 360] -> timedelta_minutes_ok W.
Proof.
  unfold timedelta_minutes_ok. simpl.
  intros [<-|[<-|[<-|[<-|[]]]]]; lia.
Qed.

Lemma filter_by_minutes_run (m : Z) (r : ref) (w : world) (df : DataFrame) :
  timedelta_minutes_ok m ->
  frame_at w r = Some df ->
  filter_by_minutes (Some m) r w
  = (Ok (List.length (heap w)),
     set_heap (heap w ++ [FrameObj (window_rows m df)]) w).
Proof.
  intros Hm.
  unfold frame_at, filter_by_minutes, frame_of, deref, bind, alloc, ret, lift.
  intros H. destruct (nth_error (heap w) r) as [[d| |]|]; try discriminate.
  injection H as ->. rewrite (of_minutes_ok m Hm). reflexivity.
Qed.


Lemma sidebar_filters_run (r : ref) (w : world) :
  sidebar_filters r w
  = filter_by_minutes (time_options (radio_choice w)) r (sidebar_rendered w).
Proof. reflexivity. Qed.

(** ** The rows that are kept *)

Lemma window_rows_latest (m : Z) (df : DataFrame) (t : Z) :
  latest_instant df t ->
  window_rows m df
  = filter (fun s => t - m * Datetime.us_per_minute <=? timestamp s) df.
Proof.
  intros H. apply timestamp_max_latest in H.
  unfold window_rows. rewrite H. reflexivity.
Qed.

Lemma window_rows_subseq (m : Z) (df : DataFrame) : subseq (window_rows m df) df.
Proof. apply subseq_filter. Qed.




(* ================================================================== *)
(** * The time-window filter: what it returns *)

Lemma time_options_values (k : time_range) (W : Z) :
  time_options k = Some W -> In W [30; 60; 180; 360].
Proof.
  destruct k; simpl; intros H; try discriminate; injection H as <-; auto.
Qed.

Lemma ten_rows (df : DataFrame) :
  List.length df = 10%nat ->
  exists a b c d e f g h i j, df = [a; b; c; d; e; f; g; h; i; j].
Proof.
  intros H.
  do 10 (destruct df as [|? df]; [discriminate|]).
  destruct df; [|discriminate].
  repeat eexists.
Qed.

(** C1.  With a window [W] selected, [sidebar_filters] returns exactly the
    rows whose timestamp is at least the maximum timestamp of the series
    minus [W] minutes; with "All data" it returns the series itself; a
    window at least as wide as the span of the data keeps every row.  For a
    series of ten rows five minutes apart that ends at [T], a window of 20
    minutes keeps exactly the last five rows, the row at [T] among them. *)
Theorem sidebar_filters_window (w : world) (r : ref) (df : DataFrame) :
  frame_at w r = Some df ->
  (forall W, time_options (radio_choice w) = Some W ->
     In W [30; 60; 180; 360] /\
     exists r' w' out,
       sidebar_filters r w = (Ok r', w') /\ frame_at w' r' = Some out /\
       (df = [] -> out = []) /\
       (forall t, latest_instant df t ->
          out = filter (fun s => t - W * Datetime.us_per_minute <=? timestamp s) df) /\
       (forall t t0, latest_instant df t ->
          (forall s, In s df -> t0 <= timestamp s) ->
          t - t0 <= W * Datetime.us_per_minute -> out = df))
  /\ (radio_choice w = All_data ->
      exists w', sidebar_filters r w = (Ok r, w') /\ frame_at w' r = Some df)
  /\ (forall T,
        List.length df = 10%nat ->
        (forall i s, nth_error df i = Some s ->
                     timestamp s = T - (9 - Z.of_nat i) * stride) ->
        exists r' w' s,
          filter_by_minutes (Some 20) r w = (Ok r', w') /\
          frame_at w' r' = Some (skipn 5 df) /\
          List.length (skipn 5 df) = 5%nat /\
          nth_error (skipn 5 df) 4 = Some s /\ timestamp s = T).
Proof.
  intros Hdf. split; [|split].
  - intros W HW. split; [exact (time_options_values _ _ HW)|].
    pose proof (selectable_minutes_ok W (time_options_values _ _ HW)) as HWok.
    rewrite sidebar_filters_run, HW.
    rewrite (filter_by_minutes_run W r (sidebar_rendered w) df HWok Hdf).
    eexists _, _, (window_rows W df).
    split; [reflexivity|]. split; [apply frame_at_new|].
    split; [intros ->; reflexivity|]. split.
    + intros t Ht. apply window_rows_latest, Ht.
    + intros t t0 Ht Hlo Hspan. rewrite (window_rows_latest W df t Ht).
      apply filter_all. intros s Hs. apply Z.leb_le.
      specialize (Hlo s Hs). lia.
  - intros Hall. rewrite sidebar_filters_run, Hall. simpl.
    eexists. split; [reflexivity|]. exact Hdf.
  - intros T Hlen Hts.
    assert (H20 : timedelta_minutes_ok 20) by (unfold timedelta_minutes_ok; lia).
    rewrite (filter_by_minutes_run 20 r w df H20 Hdf).
    destruct (ten_rows df Hlen) as (a & b & c & d & e & f & g & h & i & j & ->).
    pose proof (Hts 0%nat _ eq_refl) as H0. pose proof (Hts 1%nat _ eq_refl) as H1.
    pose proof (Hts 2%nat _ eq_refl) as H2. pose proof (Hts 3%nat _ eq_refl) as H3.
    pose proof (Hts 4%nat _ eq_refl) as H4. pose proof (Hts 5%nat _ eq_refl) as H5.
    pose proof (Hts 6%nat _ eq_refl) as H6. pose proof (Hts 7%nat _ eq_refl) as H7.
    pose proof (Hts 8%nat _ eq_refl) as H8. pose proof (Hts 9%nat _ eq_refl) as H9.
    unfold stride, Datetime.us_per_minute in *. simpl Z.of_nat in *.
    assert (Hmax : latest_instant [a; b; c; d; e; f; g; h; i; j] T).
    { split.
      - simpl. do 9 right. left. lia.
      - intros s Hs. simpl in Hs.
        repeat (destruct Hs as [<-|Hs]; [lia|]). contradiction. }
    eexists _, _, j. split; [reflexivity|].
    split; [|split; [reflexivity|split; [reflexivity|lia]]].
    rewrite frame_at_new. f_equal.
    rewrite (window_rows_latest 20 _ T Hmax). simpl.
    unfold Datetime.us_per_minute.
    repeat match goal with
           | |- context [?x <=? ?y] =>
               destruct (Z.leb_spec x y); [|try lia]; try lia
           end.
    reflexivity.
Qed.

Lemma series10_latest : latest_instant (Demo.series 10) Demo.midnight.
Proof.
  split.
  - vm_compute. do 9 right. left. reflexivity.
  - intros s Hs. vm_compute in Hs.
    repeat (destruct Hs as [<-|Hs]; [vm_compute; discriminate|]). contradiction.
Qed.

Lemma sidebar_filters_window_witness :
  exists r' w',
    sidebar_filters 0%nat
      (Demo.world_of [FrameObj (Demo.series 10)] Last_30_minutes) = (Ok r', w')
    /\ frame_at w' r' = Some (skipn 3 (Demo.series 10)).
Proof.
  destruct (sidebar_filters_window
              (Demo.world_of [FrameObj (Demo.series 10)] Last_30_minutes)
              0%nat (Demo.series 10) eq_refl) as [H _].
  destruct (H 30 eq_refl) as (_ & r' & w' & out & Hrun & Hout & _ & Hrows & _).
  exists r', w'. split; [exact Hrun|].
  rewrite Hout, (Hrows Demo.midnight series10_latest). reflexivity.
Defined.






(** C8.  The filter leaves its input as it was: after the call the input
    reference still holds the same series and no object of the world has
    changed; the rows of the result are in the order of the input. *)
Theorem sidebar_filters_pure (w : world) (r : ref) (df : DataFrame) :
  frame_at w r = Some df ->
  exists r' w' out,
    sidebar_filters r w = (Ok r', w') /\
    frame_at w' r = Some df /\ objects_kept w w' /\
    frame_at w' r' = Some out /\ subseq out df.
Proof.
  intros Hdf. rewrite sidebar_filters_run.
  destruct (time_options (radio_choice w)) as [m|] eqn:Em.
  - pose proof (selectable_minutes_ok m (time_options_values _ _ Em)) as Hm.
    rewrite (filter_by_minutes_run m r (sidebar_rendered w) df Hm Hdf).
    eexists _, _, (window_rows m df). split; [reflexivity|].
    split; [apply (frame_at_alloc (sidebar_rendered w)); exact Hdf|].
    split; [apply (objects_kept_alloc (sidebar_rendered w))|].
    split; [apply frame_at_new | apply window_rows_subseq].
  - simpl. eexists _, _, df. split; [reflexivity|].
    split; [exact Hdf|]. split; [intros r0 o H; exact H|].
    split; [exact Hdf | apply subseq_refl].
Qed.

Lemma sidebar_filters_pure_witness :
  exists r' w',
    sidebar_filters 0%nat
      (Demo.world_of [FrameObj (Demo.series 10)] Last_6_hours) = (Ok r', w')
    /\ frame_at w' 0%nat = Some (Demo.series 10).
Proof.
  destruct (sidebar_filters_pure
              (Demo.world_of [FrameObj (Demo.series 10)] Last_6_hours)
              0%nat (Demo.series 10) eq_refl)
    as (r' & w' & out & Hrun & Hsame & _).
  exists r', w'. auto.
Defined.

(* ================================================================== *)
(** * Running the generator *)

Lemma bind_run {A B : Type} (c : M A) (k : A -> M B) (w w' : world) (a : A) :
  c w = (Ok a, w') -> bind c k w = k a w'.
Proof. unfold bind. intros ->. reflexivity. Qed.

Lemma bind_lift {A B : Type} (r : result A) (k : A -> M B) (w : world) :
  bind (lift r) k w
  = match r with Ok a => k a w | Raise e => (Raise e, w) end.
Proof. reflexivity. Qed.

Lemma range_length (n : Z) : List.length (range n) = Z.to_nat n.
Proof. unfold range. rewrite length_map, length_seq. reflexivity. Qed.

Lemma range_In (n i : Z) : In i (range n) <-> 0 <= i < n.
Proof.
  unfold range. rewrite in_map_iff. split.
  - intros [k [<- Hk]]. apply in_seq in Hk. lia.
  - intros H. exists (Z.to_nat i). split; [lia|]. apply in_seq. lia.
Qed.

Lemma range_nth_error (n : Z) (i : nat) :
  (i < Z.to_nat n)%nat -> nth_error (range n) i = Some (Z.of_nat i).
Proof.
  intros H. unfold range.
  rewrite nth_error_map, nth_error_seq.
  destruct (Nat.ltb_spec i (Z.to_nat n)); [reflexivity | lia].
Qed.

Lemma mapM_length {A B : Type} (f : A -> result B) (l : list A) (ys : list B) :
  Res.mapM f l = Ok ys -> List.length ys = List.length l.
Proof.
  revert ys. induction l as [|x l IH]; simpl; intros ys H.
  - injection H as <-. reflexivity.
  - destruct (f x); [|discriminate]. simpl in H.
    destruct (Res.mapM f l); [|discriminate]. simpl in H.
    injection H as <-. simpl. f_equal. apply IH. reflexivity.
Qed.

Lemma mapM_ok {A B : Type} (f : A -> result B) (g : A -> B) (l : list A) :
  (forall x, In x l -> f x = Ok (g x)) -> Res.mapM f l = Ok (map g l).
Proof.
  induction l as [|x l IH]; simpl; intros H; [reflexivity|].
  rewrite (H x (or_introl eq_refl)). simpl.
  rewrite IH; [reflexivity|]. intros y Hy. apply H. right. exact Hy.
Qed.

Lemma mapM_inv {A B : Type} (f : A -> result B) (l : list A) (ys : list B) :
  Res.mapM f l = Ok ys ->
  forall i x, nth_error l i = Some x ->
              exists y, nth_error ys i = Some y /\ f x = Ok y.
Proof.
  revert ys. induction l as [|a l IH]; simpl; intros ys H i x Hi.
  - destruct i; discriminate.
  - destruct (f a) as [b|] eqn:Ea; [|discriminate]. simpl in H.
    destruct (Res.mapM f l) as [bs|] eqn:El; [|discriminate]. simpl in H.
    injection H as <-.
    destruct i as [|i]; simpl in *.
    + injection Hi as <-. exists b. auto.
    + apply (IH bs eq_refl i x Hi).
Qed.

Lemma mapM_raise {A B : Type} (f : A -> result B) (l : list A) (x : A) (e : exn) :
  In x l -> f x = Raise e ->
  (forall y e', f y = Raise e' -> e' = e) ->
  Res.mapM f l = Raise e.
Proof.
  intros Hin Hx Hall. induction l as [|a l IH]; [contradiction|]. simpl.
  destruct (f a) as [b|e'] eqn:Ea; simpl.
  - destruct Hin as [->|Hin]; [congruence|].
    rewrite (IH Hin). reflexivity.
  - f_equal. apply (Hall a). exact Ea.
Qed.

Lemma map2_length (f : float64 -> float64 -> float64) (a b : list float64) :
  List.length (map2 f a b) = Nat.min (List.length a) (List.length b).
Proof. unfold map2. rewrite length_map, length_combine. reflexivity. Qed.

Lemma map2_nth_error (f : float64 -> float64 -> float64)
      (a b : list float64) (i : nat) (x y : float64) :
  nth_error a i = Some x -> nth_error b i = Some y ->
  nth_error (map2 f a b) i = Some (f x y).
Proof.
  revert b i. induction a as [|a0 a IH]; intros b i Ha Hb.
  - destruct i; discriminate.
  - destruct b as [|b0 b]; [destruct i; discriminate|].
    destruct i as [|i]; simpl in *.
    + injection Ha as <-. injection Hb as <-. reflexivity.
    + apply (IH b i Ha Hb).
Qed.

Lemma cumsum_from_length (acc : float64) (l : list float64) :
  List.length (cumsum_from acc l) = List.length l.
Proof.
  revert acc. induction l as [|x l IH]; simpl; intros acc; [reflexivity|].
  f_equal. apply IH.
Qed.

Lemma np_cumsum_length (l : list float64) :
  List.length (np_cumsum l) = List.length l.
Proof.
  destruct l; simpl; [reflexivity|]. f_equal. apply cumsum_from_length.
Qed.

Lemma removelast_shorter {A : Type} (a : A) (l : list A) :
  S (List.length (removelast (a :: l))) = List.length (a :: l).
Proof.
  revert a. induction l as [|b l IH]; intros a; [reflexivity|].
  change (removelast (a :: b :: l)) with (a :: removelast (b :: l)).
  simpl List.length. f_equal. apply IH.
Qed.

Lemma set_last_length (y : list float64) (v : float64) :
  List.length (set_last y v) = List.length y.
Proof.
  unfold set_last. destruct y as [|a y]; [reflexivity|].
  rewrite length_app, <- (removelast_shorter a y). simpl. lia.
Qed.

Lemma np_linspace_inv (a b : float64) (num : Z) (ramp : list float64) :
  np_linspace a b num = Ok ramp ->
  0 <= num /\ List.length ramp = Z.to_nat num.
Proof.
  unfold np_linspace. destruct (Z.ltb_spec num 0) as [Hlt|Hge]; [discriminate|].
  intros Hok. injection Hok as <-. split; [assumption|].
  assert (L : forall f g h : float64 -> float64,
             List.length
               (map (fun v => add v a)
                    (if 0 <? num - 1
                     then if eqb (div (sub b a) (of_int (num - 1))) zero
                          then map f (map of_int (range num))
                          else map g (map of_int (range num))
                     else map h (map of_int (range num))))
             = Z.to_nat num).
  { intros f g h. rewrite length_map.
    destruct (0 <? num - 1); [destruct (eqb _ _)|];
      rewrite !length_map; apply range_length. }
  destruct (1 <? num); [rewrite set_last_length|]; apply L.
Qed.

Lemma np_linspace_ok (a b : float64) (num : Z) :
  0 <= num -> exists ramp, np_linspace a b num = Ok ramp.
Proof.
  intros H. unfold np_linspace.
  destruct (Z.ltb_spec num 0); [lia|]. eexists. reflexivity.
Qed.

Lemma normal_draws_length (w : world) (first : nat) (scale : float64) (n : nat) :
  List.length (normal_draws w first scale n) = n.
Proof. unfold normal_draws. rewrite length_map, length_seq. reflexivity. Qed.

Lemma normal_draws_nth_error (w : world) (first : nat) (scale : float64)
      (n i : nat) :
  (i < n)%nat ->
  nth_error (normal_draws w first scale n) i
  = Some (add (of_int 0) (mul scale (gauss_tape w (first + i)%nat))).
Proof.
  intros H. unfold normal_draws.
  rewrite nth_error_map, nth_error_seq.
  destruct (Nat.ltb_spec i n); [reflexivity | lia].
Qed.

Lemma np_random_normal_run (scale : float64) (size : Z) (w : world) :
  0 <= size ->
  np_random_normal (of_int 0) scale size w
  = (Ok (normal_draws w (gauss_drawn w) scale (Z.to_nat size)),
     set_gauss_drawn (gauss_drawn w + Z.to_nat size)%nat w).
Proof.
  intros H. unfold np_random_normal.
  destruct (Z.ltb_spec size 0); [lia | reflexivity].
Qed.

Lemma pd_DataFrame_ok (ts : list Z) (d t p pw h sp : list float64) :
  List.length d = List.length ts -> List.length t = List.length ts ->
  List.length p = List.length ts -> List.length pw = List.length ts ->
  List.length h = List.length ts -> List.length sp = List.length ts ->
  pd_DataFrame ts d t p pw h sp
  = Ok (map (row_at ts d t p pw h sp) (seq 0 (List.length ts))).
Proof.
  intros Hd Ht Hp Hpw Hh Hsp. unfold pd_DataFrame.
  rewrite Hd, Ht, Hp, Hpw, Hh, Hsp. simpl.
  rewrite Nat.eqb_refl. reflexivity.
Qed.

(** The generator, step by step: it reads the clock, computes the
    timestamps, then the ramp, draws six arrays and assembles the frame. *)
Lemma generate_eq (num_records : Z) (w : world) :
  _generate_sample_data num_records w
  = match Res.mapM (stamp (utc_clock w (clock_reads w))) (range num_records) with
    | Raise e => (Raise e, set_clock_reads (S (clock_reads w)) w)
    | Ok stamps =>
        match np_linspace (of_int 100) (of_int 350) num_records with
        | Raise e => (Raise e, set_clock_reads (S (clock_reads w)) w)
        | Ok ramp =>
            (Ok (List.length (heap w)),
             generated_world num_records w
               (generated_frame num_records w stamps ramp))
        end
    end.
Proof.
  unfold _generate_sample_data.
  rewrite (bind_run utcnow _ w _ _ eq_refl), bind_lift.
  change (fun i : Z => Res.bind (Datetime.of_minutes (5 * i))
                                (Datetime.minus (utc_clock w (clock_reads w))))
    with (stamp (utc_clock w (clock_reads w))).
  destruct (Res.mapM (stamp (utc_clock w (clock_reads w))) (range num_records))
    as [stamps|e] eqn:Es; [|reflexivity].
  rewrite bind_lift.
  destruct (np_linspace (of_int 100) (of_int 350) num_records)
    as [ramp|e] eqn:Er; [|reflexivity].
  destruct (np_linspace_inv _ _ _ _ Er) as [Hn Hramp].
  apply mapM_length in Es. rewrite range_length in Es.
  do 6 (erewrite bind_run; [|apply np_random_normal_run; exact Hn]).
  rewrite bind_lift.
  rewrite pd_DataFrame_ok.
  - reflexivity.
  - rewrite map2_length, Hramp, normal_draws_length, length_rev, Es. lia.
  - rewrite map2_length, length_map, range_length, normal_draws_length,
      length_rev, Es. lia.
  - rewrite map2_length, length_map, map2_length, Hramp, !normal_draws_length,
      length_rev, Es. lia.
  - rewrite length_map, normal_draws_length, length_rev, Es. reflexivity.
  - rewrite length_map, np_cumsum_length, normal_draws_length, length_rev, Es.
    reflexivity.
  - rewrite length_map, normal_draws_length, length_rev, Es. reflexivity.
Qed.

(** ** The timestamps *)

Lemma stamp_ok (now i : Z) :
  Datetime.valid now = true -> 0 <= i -> 0 <= now - i * stride ->
  stamp now i = Ok (now - i * stride).
Proof.
  intros Hv Hi Hlo. unfold Datetime.valid in Hv.
  apply andb_true_iff in Hv as [H0 Hmax].
  apply Z.leb_le in H0. apply Z.leb_le in Hmax.
  unfold Datetime.datetime_max in Hmax.
  unfold stride, Datetime.us_per_minute in Hlo.
  assert (Htd : Datetime.timedelta_valid (5 * i * Datetime.us_per_minute) = true).
  { unfold Datetime.timedelta_valid, Datetime.us_per_minute, Datetime.us_per_day.
    apply andb_true_iff. split; apply Z.leb_le.
    - transitivity 0; [lia | apply Z.div_pos; lia].
    - apply Z.lt_succ_r. apply Z.div_lt_upper_bound; lia. }
  assert (Hval : Datetime.valid (now - 5 * i * Datetime.us_per_minute) = true).
  { unfold Datetime.valid, Datetime.datetime_max, Datetime.us_per_minute.
    apply andb_true_iff. split; apply Z.leb_le; lia. }
  unfold stamp, Datetime.of_minutes. rewrite Htd.
  unfold Res.bind, Datetime.minus. rewrite Hval.
  f_equal. unfold stride. lia.
Qed.

Lemma stamp_raises (now i : Z) (e : exn) :
  stamp now i = Raise e -> e = OverflowError.
Proof.
  unfold stamp, Datetime.of_minutes, Datetime.minus.
  destruct (Datetime.timedelta_valid _); unfold Res.bind.
  - destruct (Datetime.valid _); [discriminate|]. intros H. injection H as <-.
    reflexivity.
  - intros H. injection H as <-. reflexivity.
Qed.

Lemma stamp_overflow (now i : Z) :
  now - i * stride < 0 -> stamp now i = Raise OverflowError.
Proof.
  intros Hlo. unfold stamp, Datetime.of_minutes, Datetime.minus.
  destruct (Datetime.timedelta_valid _); unfold Res.bind; [|reflexivity].
  unfold Datetime.valid.
  replace (0 <=? now - 5 * i * Datetime.us_per_minute) with false;
    [reflexivity|].
  symmetry. apply Z.leb_gt. unfold stride in Hlo. lia.
Qed.

Lemma stamps_in_range (now n : Z) :
  Datetime.valid now = true -> 0 <= now - (n - 1) * stride ->
  Res.mapM (stamp now) (range n)
  = Ok (map (fun i => now - i * stride) (range n)).
Proof.
  intros Hv Hlo. apply mapM_ok. intros i Hi. apply range_In in Hi.
  apply stamp_ok; [exact Hv | lia |].
  unfold stride, Datetime.us_per_minute in *. nia.
Qed.

(** ** The rows of the generated frame *)

Lemma generated_frame_length (num_records : Z) (w : world)
      (stamps : list Z) (ramp : list float64) :
  List.length (generated_frame num_records w stamps ramp) = List.length stamps.
Proof.
  unfold generated_frame. rewrite length_map, length_seq, length_rev.
  reflexivity.
Qed.

Lemma generated_frame_row (num_records : Z) (w : world)
      (stamps : list Z) (ramp : list float64) (i : nat) (s : TelemetrySample) :
  nth_error (generated_frame num_records w stamps ramp) i = Some s ->
  (i < List.length stamps)%nat /\
  timestamp s = nth i (rev stamps) 0 /\
  depth_m s
  = nth i (map2 add ramp
                (normal_draws w (gauss_drawn w) (of_int 8) (Z.to_nat num_records)))
        S754_nan /\
  pressure_kpa s
  = nth i (map2 add
             (map (mul (literal 13 10))
                  (map2 add ramp
                        (normal_draws w (gauss_drawn w) (of_int 8)
                                      (Z.to_nat num_records))))
             (normal_draws w (gauss_drawn w + Z.to_nat num_records
                              + Z.to_nat num_records)%nat
                           (of_int 5) (Z.to_nat num_records)))
        S754_nan /\
  power_pct s
  = nth i (map (fun x => np_clip (add (of_int 75) x) (of_int 60) (of_int 95))
               (normal_draws w (gauss_drawn w + Z.to_nat num_records
                                + Z.to_nat num_records + Z.to_nat num_records)%nat
                             (of_int 4) (Z.to_nat num_records)))
        S754_nan /\
  heading_deg s
  = nth i (map (fun c => np_remainder (add (of_int 180) c) (of_int 360))
               (np_cumsum
                  (normal_draws w (gauss_drawn w + Z.to_nat num_records
                                   + Z.to_nat num_records + Z.to_nat num_records
                                   + Z.to_nat num_records)%nat
                                (literal 15 10) (Z.to_nat num_records))))
        S754_nan /\
  speed_knots s
  = nth i (map (fun x => np_clip (add (literal 25 10) x)
                                 (literal 10 10) (literal 35 10))
               (normal_draws w (gauss_drawn w + Z.to_nat num_records
                                + Z.to_nat num_records + Z.to_nat num_records
                                + Z.to_nat num_records + Z.to_nat num_records)%nat
                             (literal 3 10) (Z.to_nat num_records)))
        S754_nan.
Proof.
  unfold generated_frame. rewrite nth_error_map, nth_error_seq, length_rev.
  destruct (Nat.ltb_spec i (List.length stamps)) as [Hi|Hi]; [|discriminate].
  unfold option_map. intros H.
  apply (f_equal (fun o => match o with Some x => x | None => s end)) in H.
  subst s. split; [exact Hi|].
  repeat split.
Qed.

Lemma generated_world_frame (num_records : Z) (w : world) (df : DataFrame) :
  frame_at (generated_world num_records w df) (List.length (heap w)) = Some df.
Proof.
  unfold frame_at, generated_world. simpl.
  rewrite nth_error_app2, Nat.sub_diag; [reflexivity | apply Nat.le_refl].
Qed.

(** C2 (amended).  For [N >= 1] and a current instant [T] such that
    [T - 5 (N - 1)] minutes is not before [datetime.min], the generator
    succeeds and returns [N] rows; row [i] carries the instant
    [T - 5 (N - 1 - i)] minutes, so timestamps ascend strictly by five
    minutes from row to row and the last row is at [T]. *)
Theorem generate_timestamps (w : world) (N : Z) :
  Datetime.valid (utc_clock w (clock_reads w)) = true ->
  1 <= N ->
  0 <= utc_clock w (clock_reads w) - (N - 1) * stride ->
  exists r w' df,
    _generate_sample_data N w = (Ok r, w') /\ frame_at w' r = Some df /\
    Z.of_nat (List.length df) = N /\
    (forall i s, nth_error df i = Some s ->
       timestamp s = utc_clock w (clock_reads w) - (N - 1 - Z.of_nat i) * stride) /\
    (forall i s s', nth_error df i = Some s -> nth_error df (S i) = Some s' ->
       timestamp s' = timestamp s + stride /\ timestamp s < timestamp s') /\
    (exists s, nth_error df (Z.to_nat (N - 1)) = Some s /\
               timestamp s = utc_clock w (clock_reads w)).
Proof.
  intros Hv HN Hlo. set (T := utc_clock w (clock_reads w)) in *.
  destruct (np_linspace_ok (of_int 100) (of_int 350) N) as [ramp Hramp]; [lia|].
  pose proof (stamps_in_range T N Hv Hlo) as Hst.
  set (stamps := map (fun i => T - i * stride) (range N)) in *.
  assert (Hlen : List.length stamps = Z.to_nat N).
  { unfold stamps. rewrite length_map. apply range_length. }
  assert (Hrow : forall i s,
             nth_error (generated_frame N w stamps ramp) i = Some s ->
             timestamp s = T - (N - 1 - Z.of_nat i) * stride).
  { intros i s Hs. apply generated_frame_row in Hs as (Hi & -> & _).
    apply nth_error_nth. rewrite nth_error_rev.
    destruct (Nat.ltb_spec i (List.length stamps)) as [_|]; [|lia].
    rewrite Hlen in *. unfold stamps.
    rewrite nth_error_map, range_nth_error by lia.
    unfold option_map. f_equal. unfold stride, Datetime.us_per_minute. lia. }
  exists (List.length (heap w)),
    (generated_world N w (generated_frame N w stamps ramp)),
    (generated_frame N w stamps ramp).
  split; [|split; [|split; [|split; [|split]]]].
  - rewrite generate_eq. fold T. rewrite Hst, Hramp. reflexivity.
  - apply generated_world_frame.
  - rewrite generated_frame_length, Hlen. lia.
  - exact Hrow.
  - intros i s s' Hs Hs'. rewrite (Hrow _ _ Hs), (Hrow _ _ Hs').
    unfold stride, Datetime.us_per_minute. lia.
  - destruct (nth_error (generated_frame N w stamps ramp) (Z.to_nat (N - 1)))
      as [s|] eqn:E.
    + exists s. split; [reflexivity|]. rewrite (Hrow _ _ E).
      unfold stride, Datetime.us_per_minute. lia.
    + apply nth_error_None in E. rewrite generated_frame_length, Hlen in E. lia.
Qed.

Lemma generate_timestamps_witness :
  exists r w' df,
    _generate_sample_data 3 (Demo.world_of [] Last_3_hours) = (Ok r, w') /\
    frame_at w' r = Some df /\ Z.of_nat (List.length df) = 3.
Proof.
  assert (Hv : Datetime.valid
                 (utc_clock (Demo.world_of [] Last_3_hours)
                            (clock_reads (Demo.world_of [] Last_3_hours))) = true)
    by reflexivity.
  assert (HN : 1 <= 3) by (vm_compute; discriminate).
  assert (Hlo : 0 <= utc_clock (Demo.world_of [] Last_3_hours)
                       (clock_reads (Demo.world_of [] Last_3_hours))
                     - (3 - 1) * stride)
    by (vm_compute; discriminate).
  destruct (generate_timestamps (Demo.world_of [] Last_3_hours) 3 Hv HN Hlo)
    as (r & w' & df & Hrun & Hdf & Hlen & _).
  exists r, w', df. auto.
Defined.

(** C2, as stated, fails: with the clock at 2026-11-03T00:00:00 and
    [N = 300000000] the comprehension reaches an instant before
    [datetime.min] and raises [OverflowError]. *)
Lemma generate_overflow :
  1 <= 300000000 /\
  Datetime.valid (utc_clock (Demo.world_of [] Last_3_hours) 0) = true /\
  fst (_generate_sample_data 300000000 (Demo.world_of [] Last_3_hours))
  = Raise OverflowError.
Proof.
  split; [vm_compute; discriminate|]. split; [reflexivity|].
  rewrite generate_eq.
  rewrite (mapM_raise (stamp (utc_clock (Demo.world_of [] Last_3_hours)
                                        (clock_reads (Demo.world_of [] Last_3_hours))))
                      (range 300000000) 299999999 OverflowError).
  - reflexivity.
  - apply range_In. split; [vm_compute; discriminate | reflexivity].
  - apply stamp_overflow. reflexivity.
  - intros y e. apply stamp_raises.
Qed.

(* ================================================================== *)
(** * Rounding to binary64 *)

Lemma shr_1_mantissa (r : shr_record) :
  0 <= shr_m r -> shr_m (shr_1 r) = shr_m r / 2.
Proof.
  destruct r as [m rb sb]. simpl. intros Hm.
  rewrite <- Z.div2_div.
  destruct m as [|[p|p|]|p]; try reflexivity. lia.
Qed.

Lemma iter_shr_1_mantissa (p : positive) (r : shr_record) :
  0 <= shr_m r -> shr_m (iter_pos shr_1 p r) = shr_m r / 2 ^ Zpos p.
Proof.
  revert r. induction p as [p IH|p IH|]; intros r Hm; simpl iter_pos.
  - assert (H1 : 0 <= shr_m (shr_1 r))
      by (rewrite shr_1_mantissa by exact Hm; apply Z.div_pos; lia).
    assert (H2 : 0 <= shr_m (iter_pos shr_1 p (shr_1 r)))
      by (rewrite IH by exact H1; apply Z.div_pos; [exact H1|lia]).
    rewrite IH, IH, shr_1_mantissa by assumption.
    rewrite !Z.div_div by lia. f_equal.
    rewrite (Pos2Z.inj_xI p).
    replace (2 * Z.pos p + 1) with (1 + Z.pos p + Z.pos p) by lia.
    rewrite !Z.pow_add_r by lia. rewrite Z.pow_1_r. ring.
  - assert (H2 : 0 <= shr_m (iter_pos shr_1 p r))
      by (rewrite IH by exact Hm; apply Z.div_pos; [exact Hm|lia]).
    rewrite IH, IH by assumption.
    rewrite !Z.div_div by lia. f_equal.
    rewrite (Pos2Z.inj_xO p).
    replace (2 * Z.pos p) with (Z.pos p + Z.pos p) by lia.
    rewrite Z.pow_add_r by lia. reflexivity.
  - rewrite shr_1_mantissa by exact Hm. reflexivity.
Qed.

Lemma shr_record_of_loc_mantissa (m : Z) (l : SpecFloat.location) :
  shr_m (shr_record_of_loc m l) = m.
Proof. destruct l as [|[| |]]; reflexivity. Qed.

(** [shr_fexp] divides the mantissa by a power of two and moves the
    exponent accordingly. *)
Lemma shr_fexp_spec (m e : Z) (l : SpecFloat.location) :
  0 <= m ->
  let k := Z.max 0 (fexp prec emax (Zdigits2 m + e) - e) in
  shr_m (fst (shr_fexp prec emax m e l)) = m / 2 ^ k /\
  snd (shr_fexp prec emax m e l) = e + k.
Proof.
  intros Hm k. unfold shr_fexp, shr. subst k.
  destruct (fexp prec emax (Zdigits2 m + e) - e) as [|p|p] eqn:E; simpl fst; simpl snd.
  - rewrite shr_record_of_loc_mantissa. change (Z.max 0 0) with 0.
    rewrite Z.div_1_r. lia.
  - rewrite iter_shr_1_mantissa by (rewrite shr_record_of_loc_mantissa; exact Hm).
    rewrite shr_record_of_loc_mantissa.
    replace (Z.max 0 (Z.pos p)) with (Z.pos p) by lia. split; reflexivity.
  - rewrite shr_record_of_loc_mantissa.
    replace (Z.max 0 (Z.neg p)) with 0 by lia.
    rewrite Z.div_1_r. lia.
Qed.

Lemma round_nearest_even_bounds (m : Z) (l : SpecFloat.location) :
  m <= round_nearest_even m l <= m + 1.
Proof.
  unfold round_nearest_even.
  destruct l as [|[| |]]; try lia. destruct (Z.even m); lia.
Qed.

Lemma digits2_pos_lower (p : positive) :
  2 ^ (Zpos (digits2_pos p) - 1) <= Zpos p.
Proof.
  induction p as [p IH|p IH|]; simpl digits2_pos.
  - rewrite Pos2Z.inj_succ.
    replace (Z.succ (Z.pos (digits2_pos p)) - 1)
      with (Z.pos (digits2_pos p) - 1 + 1) by lia.
    rewrite Z.pow_add_r by lia. lia.
  - rewrite Pos2Z.inj_succ.
    replace (Z.succ (Z.pos (digits2_pos p)) - 1)
      with (Z.pos (digits2_pos p) - 1 + 1) by lia.
    rewrite Z.pow_add_r by lia. lia.
  - simpl. lia.
Qed.

Lemma Zdigits2_upper (m k : Z) :
  0 <= m -> 0 <= k -> m < 2 ^ k -> Zdigits2 m <= k.
Proof.
  intros Hm Hk Hlt. destruct m as [|p|p]; simpl; [lia| |lia].
  pose proof (digits2_pos_lower p) as Hlo.
  destruct (Z.le_gt_cases (Z.pos (digits2_pos p)) k) as [|Hgt]; [assumption|].
  assert (2 ^ k <= 2 ^ (Z.pos (digits2_pos p) - 1))
    by (apply Z.pow_le_mono_r; lia).
  lia.
Qed.

Lemma pow2_split (a b : Z) : 0 <= a -> 0 <= b -> 2 ^ (a + b) = 2 ^ a * 2 ^ b.
Proof. intros. apply Z.pow_add_r; assumption. Qed.

Lemma pow2_pos (a : Z) : 0 <= a -> 0 < 2 ^ a.
Proof. intros. apply Z.pow_pos_nonneg; lia. Qed.

Lemma fexp_below_360 (m e : Z) :
  0 <= m -> e <= -44 -> m <= 45 * 2 ^ (3 - e) ->
  fexp prec emax (Zdigits2 m + e) <= -44.
Proof.
  intros Hm He Hlt.
  assert (Hd : Zdigits2 m <= 9 - e).
  { apply Zdigits2_upper; [exact Hm | lia |].
    replace (9 - e) with (6 + (3 - e)) by lia.
    rewrite pow2_split by lia. change (2 ^ 6) with 64.
    pose proof (pow2_pos (3 - e)). lia. }
  unfold fexp, emin, prec, emax. lia.
Qed.

Lemma binary_round_aux_below_360 (s : bool) (m e : Z) (l : SpecFloat.location) :
  0 <= m -> e <= -44 -> m < 45 * 2 ^ (3 - e) ->
  below_360 s (binary_round_aux prec emax s m e l).
Proof.
  intros Hm He Hlt. unfold binary_round_aux.
  pose proof (shr_fexp_spec m e l Hm) as [Hm1 He1].
  pose proof (fexp_below_360 m e Hm He (Z.lt_le_incl _ _ Hlt)) as Hf1.
  destruct (shr_fexp prec emax m e l) as [mrs1 e1]. simpl fst in Hm1. simpl snd in He1.
  set (k1 := Z.max 0 (fexp prec emax (Zdigits2 m + e) - e)) in *.
  assert (Hk1 : 0 <= k1) by (unfold k1; lia).
  assert (He1' : e1 <= -44) by (unfold k1 in *; lia).
  assert (Hm1lo : 0 <= shr_m mrs1)
    by (rewrite Hm1; apply Z.div_pos; [exact Hm | apply pow2_pos; exact Hk1]).
  assert (Hm1hi : shr_m mrs1 < 45 * 2 ^ (3 - e1)).
  { rewrite Hm1. apply Z.div_lt_upper_bound; [apply pow2_pos; exact Hk1|].
    replace (3 - e) with (k1 + (3 - e1)) in Hlt by lia.
    rewrite pow2_split in Hlt by lia. lia. }
  pose proof (round_nearest_even_bounds (shr_m mrs1) (loc_of_shr_record mrs1))
    as Hrne.
  set (m2 := round_nearest_even (shr_m mrs1) (loc_of_shr_record mrs1)) in *.
  assert (Hm2lo : 0 <= m2) by lia.
  assert (Hm2hi : m2 <= 45 * 2 ^ (3 - e1)) by lia.
  pose proof (shr_fexp_spec m2 e1 loc_Exact Hm2lo) as [Hm3 He3].
  pose proof (fexp_below_360 m2 e1 Hm2lo He1' Hm2hi) as Hf2.
  destruct (shr_fexp prec emax m2 e1 loc_Exact) as [mrs3 e3].
  simpl fst in Hm3. simpl snd in He3.
  set (k2 := Z.max 0 (fexp prec emax (Zdigits2 m2 + e1) - e1)) in *.
  assert (Hk2 : 0 <= k2) by (unfold k2; lia).
  assert (He3' : e3 <= -44) by (unfold k2 in *; lia).
  assert (Hm3lo : 0 <= shr_m mrs3)
    by (rewrite Hm3; apply Z.div_pos; [exact Hm2lo | apply pow2_pos; exact Hk2]).
  assert (Hm3hi : shr_m mrs3 <= 45 * 2 ^ (3 - e3)).
  { rewrite Hm3. apply Z.div_le_upper_bound; [apply pow2_pos; exact Hk2|].
    replace (3 - e1) with (k2 + (3 - e3)) in Hm2hi by lia.
    rewrite pow2_split in Hm2hi by lia. lia. }
  destruct (shr_m mrs3) as [|p|p].
  - reflexivity.
  - replace (e3 <=? emax - prec) with true
      by (symmetry; apply Z.leb_le; unfold emax, prec; lia).
    simpl. auto.
  - lia.
Qed.

(** Rounding does not produce a NaN. *)
Lemma binary_round_aux_not_nan (s : bool) (m e : Z) (l : SpecFloat.location) :
  0 <= m -> is_nan (binary_round_aux prec emax s m e l) = false.
Proof.
  intros Hm. unfold binary_round_aux.
  pose proof (shr_fexp_spec m e l Hm) as [Hm1 _].
  destruct (shr_fexp prec emax m e l) as [mrs1 e1]. simpl fst in Hm1.
  assert (Hm1lo : 0 <= shr_m mrs1)
    by (rewrite Hm1; apply Z.div_pos; [exact Hm | apply pow2_pos; lia]).
  pose proof (round_nearest_even_bounds (shr_m mrs1) (loc_of_shr_record mrs1))
    as Hrne.
  set (m2 := round_nearest_even (shr_m mrs1) (loc_of_shr_record mrs1)) in *.
  assert (Hm2lo : 0 <= m2) by lia.
  pose proof (shr_fexp_spec m2 e1 loc_Exact Hm2lo) as [Hm3 _].
  destruct (shr_fexp prec emax m2 e1 loc_Exact) as [mrs3 e3]. simpl fst in Hm3.
  assert (Hm3lo : 0 <= shr_m mrs3)
    by (rewrite Hm3; apply Z.div_pos; [exact Hm2lo | apply pow2_pos; lia]).
  destruct (shr_m mrs3) as [|p|p]; [reflexivity| |lia].
  destruct (e3 <=? emax - prec); reflexivity.
Qed.

Lemma shl_align_spec (m : positive) (e e' : Z) :
  snd (shl_align m e e') = Z.min e e' /\
  Zpos (fst (shl_align m e e')) = Zpos m * 2 ^ (e - Z.min e e').
Proof.
  unfold shl_align. destruct (e' - e) as [|d|d] eqn:E; simpl fst; simpl snd.
  - replace (Z.min e e') with e by lia. rewrite Z.sub_diag. simpl. lia.
  - replace (Z.min e e') with e by lia. rewrite Z.sub_diag. simpl. lia.
  - replace (Z.min e e') with e' by lia. split; [reflexivity|].
    replace (e - e') with (Zpos d) by lia.
    clear E. revert m.
    induction d as [|d IH] using Pos.peano_ind; intros m.
    + simpl. lia.
    + rewrite Pos.iter_succ. rewrite (Pos2Z.inj_xO (Pos.iter xO m d)), IH.
      rewrite Pos2Z.inj_succ, Z.pow_succ_r by lia. ring.
Qed.

Lemma binary_round_below_360 (s : bool) (m : positive) (e : Z) :
  e <= -44 -> Zpos m < 45 * 2 ^ (3 - e) ->
  below_360 s (binary_round prec emax s m e).
Proof.
  intros He Hlt. unfold binary_round.
  destruct (shl_align_spec m e (fexp prec emax (Z.pos (digits2_pos m) + e)))
    as [Hez Hmz].
  destruct (shl_align m e (fexp prec emax (Z.pos (digits2_pos m) + e)))
    as [mz ez].
  simpl fst in Hmz. simpl snd in Hez.
  assert (Hle : ez <= e) by lia.
  apply binary_round_aux_below_360; [lia | lia |].
  rewrite Hmz, <- Hez.
  replace (3 - ez) with ((3 - e) + (e - ez)) by lia.
  rewrite pow2_split by lia.
  pose proof (pow2_pos (e - ez)). nia.
Qed.

Lemma binary_normalize_below_360 (s sz : bool) (m e : Z) :
  e <= -44 -> 0 < m < 45 * 2 ^ (3 - e) ->
  below_360 s (binary_normalize prec emax (cond_Zopp s m) e sz).
Proof.
  intros He [Hpos Hlt]. destruct m as [|p|p]; try lia.
  destruct s; simpl; apply binary_round_below_360; assumption.
Qed.

Lemma binary_normalize_not_nan (m e : Z) (sz : bool) :
  is_nan (binary_normalize prec emax m e sz) = false.
Proof.
  destruct m as [|p|p]; simpl; [reflexivity| |];
    unfold binary_round;
    destruct (shl_align p e (fexp prec emax (Z.pos (digits2_pos p) + e)));
    apply binary_round_aux_not_nan; lia.
Qed.

Lemma of_int_360 : of_int 360 = f360.
Proof. reflexivity. Qed.

Lemma pow2_47 : 45 * 2 ^ 47 = 6333186975989760.
Proof. reflexivity. Qed.

Lemma compare_cont_le (m c : positive) :
  Z.pos m <= Z.pos c -> Pos.compare_cont Eq m c <> Gt.
Proof.
  intros H. unfold Z.le in H. rewrite <- Pos2Z.inj_compare in H. exact H.
Qed.

Lemma below_360_range (x : float64) :
  below_360 false x -> leb zero x = true /\ leb x f360 = true.
Proof.
  destruct x as [s| | |s m e]; unfold below_360; try contradiction.
  - intros ->. split; reflexivity.
  - intros (-> & He & Hm). split; [reflexivity|].
    unfold leb, SFleb, SFcompare, f360.
    destruct (Z.compare_spec e (-44)) as [Heq|Hlt|Hgt]; [|reflexivity|lia].
    subst e. replace (3 - -44) with 47 in Hm by reflexivity.
    rewrite pow2_47 in Hm. apply compare_cont_le in Hm.
    destruct (Pos.compare_cont Eq m 6333186975989760);
      [reflexivity | reflexivity | exfalso; apply Hm; reflexivity].
Qed.

(** numpy's remainder by 360 of a finite number lies between 0 and 360,
    both included. *)
Lemma np_remainder_360_range (x : float64) :
  is_finite x = true ->
  leb zero (np_remainder x (of_int 360)) = true /\
  leb (np_remainder x (of_int 360)) (of_int 360) = true.
Proof.
  rewrite of_int_360.
  destruct x as [s| | |sx mx ex]; try discriminate; intros _.
  - destruct s; split; reflexivity.
  - assert (Hmd : below_360 sx (fmod (S754_finite sx mx ex) f360)).
    { unfold fmod, f360.
      set (e := Z.min ex (-44)).
      assert (He : e <= -44) by (unfold e; lia).
      assert (Hex : 0 <= ex - e) by (unfold e; lia).
      pose proof (pow2_pos (ex - e) Hex) as Hp1.
      assert (Hb : 6333186975989760 * 2 ^ (-44 - e) = 45 * 2 ^ (3 - e)).
      { replace (3 - e) with (47 + (-44 - e)) by lia.
        rewrite pow2_split by lia. rewrite <- pow2_47. ring. }
      pose proof (pow2_pos (3 - e)) as Hp2.
      pose proof (Z.rem_bound_pos (Z.pos mx * 2 ^ (ex - e))
                                  (Z.pos 6333186975989760 * 2 ^ (-44 - e)))
        as Hr.
      rewrite Hb in *.
      set (r := Z.rem (Z.pos mx * 2 ^ (ex - e)) (45 * 2 ^ (3 - e))) in *.
      assert (Hr' : 0 <= r < 45 * 2 ^ (3 - e)) by (apply Hr; lia).
      destruct (Z.eq_dec r 0) as [->|Hnz].
      - destruct sx; reflexivity.
      - apply binary_normalize_below_360; [exact He | lia]. }
    unfold np_remainder.
    destruct (fmod (S754_finite sx mx ex) f360) as [s'| | |s' m' e'];
      unfold below_360 in Hmd; try contradiction.
    + split; reflexivity.
    + destruct Hmd as (-> & He' & Hm').
      destruct sx.
      * change (eqb f360 zero) with false.
        change (eqb (S754_finite true m' e') zero) with false.
        change (ltb f360 zero) with false.
        change (ltb (S754_finite true m' e') zero) with true.
        simpl negb. simpl xorb. cbv iota.
        apply below_360_range.
        unfold add, SFadd, f360.
        replace (Z.min e' (-44)) with e' by lia.
        destruct (shl_align_spec m' e' e') as [_ H1].
        destruct (shl_align_spec 6333186975989760 (-44) e') as [_ H2].
        replace (Z.min e' e') with e' in H1 by lia.
        replace (Z.min (-44) e') with e' in H2 by lia.
        rewrite Z.sub_diag in H1. change (2 ^ 0) with 1 in H1.
        set (a := fst (shl_align m' e' e')) in *.
        set (b := fst (shl_align 6333186975989760 (-44) e')) in *.
        assert (Hb : Z.pos b = 45 * 2 ^ (3 - e')).
        { rewrite H2. replace (3 - e') with (47 + (-44 - e')) by lia.
          rewrite pow2_split by lia. rewrite <- pow2_47. ring. }
        unfold cond_Zopp.
        destruct (Z.eq_dec (- Z.pos a + Z.pos b) 0) as [E|E].
        -- rewrite E. reflexivity.
        -- assert (Hs : 0 < - Z.pos a + Z.pos b < 45 * 2 ^ (3 - e')) by lia.
           exact (binary_normalize_below_360 false false _ e' He' Hs).
      * change (eqb f360 zero) with false.
        change (eqb (S754_finite false m' e') zero) with false.
        change (ltb f360 zero) with false.
        change (ltb (S754_finite false m' e') zero) with false.
        simpl negb. simpl xorb. cbv iota.
        apply below_360_range. unfold below_360. auto.
Qed.

(* ================================================================== *)
(** * The columns of the generated frame *)

Lemma nth_map_some {A B : Type} (f : A -> B) (l : list A) (i : nat) (x : A) (d : B) :
  nth_error l i = Some x -> nth i (map f l) d = f x.
Proof.
  intros H. apply nth_error_nth. rewrite nth_error_map, H. reflexivity.
Qed.

Lemma generate_inv (num_records : Z) (w w' : world) (r : ref) (df : DataFrame) :
  _generate_sample_data num_records w = (Ok r, w') ->
  frame_at w' r = Some df ->
  exists stamps ramp,
    0 <= num_records /\
    List.length stamps = Z.to_nat num_records /\
    List.length ramp = Z.to_nat num_records /\
    df = generated_frame num_records w stamps ramp.
Proof.
  rewrite generate_eq.
  destruct (Res.mapM (stamp (utc_clock w (clock_reads w))) (range num_records))
    as [stamps|e] eqn:Es; [|discriminate].
  destruct (np_linspace (of_int 100) (of_int 350) num_records)
    as [ramp|e] eqn:Er; [|discriminate].
  intros H Hdf.
  assert (Hr : r = List.length (heap w)) by congruence.
  assert (Hw : w' = generated_world num_records w
                      (generated_frame num_records w stamps ramp)) by congruence.
  subst r w'. rewrite generated_world_frame in Hdf.
  destruct (np_linspace_inv _ _ _ _ Er) as [Hn Hramp].
  apply mapM_length in Es. rewrite range_length in Es.
  exists stamps, ramp.
  split; [exact Hn|]. split; [exact Es|]. split; [exact Hramp|].
  congruence.
Qed.

(** ** Numbers that are not NaN *)

Lemma mul_finite_not_nan (s : bool) (m : positive) (e : Z) (y : float64) :
  is_nan y = false -> is_nan (mul (S754_finite s m e) y) = false.
Proof.
  destruct y as [sy|sy| |sy my ey]; try discriminate; intros _;
    try reflexivity.
  unfold mul, SFmul. apply binary_round_aux_not_nan. lia.
Qed.

Lemma add_finite_not_nan (x y : float64) :
  is_finite x = true -> is_nan y = false -> is_nan (add x y) = false.
Proof.
  destruct x as [sx| | |sx mx ex]; try discriminate;
    destruct y as [sy|sy| |sy my ey]; try discriminate; intros _ _;
    try reflexivity.
  - destruct sx, sy; reflexivity.
  - unfold add, SFadd. apply binary_normalize_not_nan.
Qed.

Lemma normal_draw_not_nan (scale g : float64) :
  (exists s m e, scale = S754_finite s m e) ->
  is_nan g = false ->
  is_nan (add (of_int 0) (mul scale g)) = false.
Proof.
  intros (s & m & e & ->) Hg. apply add_finite_not_nan; [reflexivity|].
  apply mul_finite_not_nan, Hg.
Qed.

(** ** Clipping *)

Lemma ltb_leb (a b : float64) : ltb a b = true -> leb a b = true.
Proof.
  unfold ltb, leb, SFltb, SFleb.
  destruct (SFcompare a b) as [[| |]|]; try discriminate; reflexivity.
Qed.

Lemma np_clip_bounds (x lo hi : float64) :
  is_nan x = false -> is_nan lo = false ->
  ltb lo hi = true -> leb lo lo = true -> leb hi hi = true ->
  leb lo (np_clip x lo hi) = true /\ leb (np_clip x lo hi) hi = true.
Proof.
  intros Hx Hlo Hlt Hll Hhh. unfold np_clip, np_maximum, np_minimum.
  rewrite Hx.
  destruct (ltb lo x) eqn:E1.
  - rewrite Hx. destruct (ltb x hi) eqn:E2.
    + split; apply ltb_leb; assumption.
    + split; [apply ltb_leb; assumption | assumption].
  - rewrite Hlo, Hlt. split; [assumption | apply ltb_leb; assumption].
Qed.

(** ** The running sum *)

Lemma cumsum_from_nth (acc : float64) (l : list float64) (i : nat) :
  (i < List.length l)%nat ->
  nth_error (cumsum_from acc l) i = Some (fold_left add (firstn (S i) l) acc).
Proof.
  revert acc i. induction l as [|x l IH]; intros acc i Hi; simpl in Hi; [lia|].
  destruct i as [|i].
  - reflexivity.
  - simpl cumsum_from. simpl nth_error. rewrite IH by lia. reflexivity.
Qed.

Lemma np_cumsum_nth (l : list float64) (i : nat) :
  (i < List.length l)%nat ->
  nth_error (np_cumsum l) i = Some (running_sum l i).
Proof.
  unfold running_sum. destruct l as [|x l]; simpl List.length; intros Hi; [lia|].
  destruct i as [|i]; [reflexivity|].
  simpl np_cumsum. simpl nth_error. rewrite cumsum_from_nth by lia.
  reflexivity.
Qed.

Lemma generated_row_index (num_records : Z) (w w' : world) (r : ref)
      (df : DataFrame) (i : nat) (s : TelemetrySample) :
  _generate_sample_data num_records w = (Ok r, w') ->
  frame_at w' r = Some df ->
  nth_error df i = Some s ->
  exists stamps ramp,
    (i < Z.to_nat num_records)%nat /\
    List.length ramp = Z.to_nat num_records /\
    nth_error (generated_frame num_records w stamps ramp) i = Some s.
Proof.
  intros Hrun Hdf Hs.
  destruct (generate_inv _ _ _ _ _ Hrun Hdf) as (stamps & ramp & _ & Hst & Hr & ->).
  exists stamps, ramp. split; [|split; [exact Hr | exact Hs]].
  apply generated_frame_row in Hs. rewrite <- Hst. apply Hs.
Qed.

(** C4.  On a tape without NaN (a normal variate never is one), every row
    of every generated frame has its [power_pct] between 60 and 95 and its
    [speed_knots] between 1.0 and 3.5, bounds included. *)
Theorem generated_power_speed_clamped
        (w w' : world) (N : Z) (r : ref) (df : DataFrame) :
  (forall k, is_nan (gauss_tape w k) = false) ->
  _generate_sample_data N w = (Ok r, w') ->
  frame_at w' r = Some df ->
  forall s, In s df ->
    leb (of_int 60) (power_pct s) = true /\
    leb (power_pct s) (of_int 95) = true /\
    leb (literal 10 10) (speed_knots s) = true /\
    leb (speed_knots s) (literal 35 10) = true.
Proof.
  intros Htape Hrun Hdf s Hs.
  apply In_nth_error in Hs as [i Hs].
  destruct (generated_row_index _ _ _ _ _ _ _ Hrun Hdf Hs)
    as (stamps & ramp & Hi & _ & Hrow).
  apply generated_frame_row in Hrow as (_ & _ & _ & _ & Hpw & _ & Hsp).
  rewrite (nth_map_some _ _ i _ _ (normal_draws_nth_error w _ _ _ i Hi)) in Hpw.
  rewrite (nth_map_some _ _ i _ _ (normal_draws_nth_error w _ _ _ i Hi)) in Hsp.
  rewrite Hpw, Hsp.
  assert (H4 : exists s0 m e, of_int 4 = S754_finite s0 m e)
    by (repeat eexists; reflexivity).
  assert (H03 : exists s0 m e, literal 3 10 = S754_finite s0 m e)
    by (repeat eexists; reflexivity).
  split; [|split].
  - apply np_clip_bounds; try reflexivity.
    apply add_finite_not_nan; [reflexivity|].
    apply normal_draw_not_nan; [exact H4 | apply Htape].
  - apply np_clip_bounds; try reflexivity.
    apply add_finite_not_nan; [reflexivity|].
    apply normal_draw_not_nan; [exact H4 | apply Htape].
  - apply np_clip_bounds; try reflexivity.
    apply add_finite_not_nan; [reflexivity|].
    apply normal_draw_not_nan; [exact H03 | apply Htape].
Qed.

Lemma generated_power_speed_clamped_witness :
  exists s,
    generated_row 3 (Demo.world_of [] Last_3_hours) 0 = Some s /\
    leb (of_int 60) (power_pct s) = true /\
    leb (power_pct s) (of_int 95) = true /\
    leb (literal 10 10) (speed_knots s) = true /\
    leb (speed_knots s) (literal 35 10) = true.
Proof.
  assert (Htape : forall k,
             is_nan (gauss_tape (Demo.world_of [] Last_3_hours) k) = false)
    by (intros k; reflexivity).
  assert (Hrun : _generate_sample_data 3 (Demo.world_of [] Last_3_hours)
                 = (Ok 0%nat,
                    snd (_generate_sample_data 3 (Demo.world_of [] Last_3_hours))))
    by (vm_compute; reflexivity).
  destruct (generated_row 3 (Demo.world_of [] Last_3_hours) 0) as [s|] eqn:E;
    [|vm_compute in E; discriminate].
  exists s. split; [reflexivity|].
  unfold generated_row in E. rewrite Hrun in E.
  destruct (frame_at (snd (_generate_sample_data 3 (Demo.world_of [] Last_3_hours)))
                     0%nat) as [df|] eqn:Hdf; [|discriminate].
  apply nth_error_In in E.
  exact (generated_power_speed_clamped _ _ 3 0%nat df Htape Hrun Hdf s E).
Defined.



(** C5 (amended).  In every generated frame the heading of row [i] is
    numpy's remainder by 360 of 180 plus the running sum of the heading
    steps up to [i]; whenever that sum is finite, the heading lies between 0
    and 360, both bounds included. *)
Theorem generated_heading_wrapped
        (w w' : world) (N : Z) (r : ref) (df : DataFrame) :
  _generate_sample_data N w = (Ok r, w') ->
  frame_at w' r = Some df ->
  forall i s, nth_error df i = Some s ->
    heading_deg s
    = np_remainder (add (of_int 180) (running_sum (heading_steps N w) i))
                   (of_int 360)
    /\ (is_finite (add (of_int 180) (running_sum (heading_steps N w) i)) = true ->
        leb zero (heading_deg s) = true /\
        leb (heading_deg s) (of_int 360) = true).
Proof.
  intros Hrun Hdf i s Hs.
  destruct (generated_row_index _ _ _ _ _ _ _ Hrun Hdf Hs)
    as (stamps & ramp & Hi & _ & Hrow).
  apply generated_frame_row in Hrow as (_ & _ & _ & _ & _ & Hh & _).
  assert (Hc : nth_error (np_cumsum (heading_steps N w)) i
               = Some (running_sum (heading_steps N w) i)).
  { apply np_cumsum_nth. unfold heading_steps.
    rewrite normal_draws_length. exact Hi. }
  fold (heading_steps N w) in Hh.
  rewrite (nth_map_some _ _ i _ _ Hc) in Hh.
  split; [exact Hh|].
  intros Hfin. rewrite Hh. apply np_remainder_360_range. exact Hfin.
Qed.

Lemma generated_heading_wrapped_witness :
  exists s,
    generated_row 3 (Demo.world_of [] Last_3_hours) 2 = Some s /\
    leb zero (heading_deg s) = true /\
    leb (heading_deg s) (of_int 360) = true.
Proof.
  assert (Hrun : _generate_sample_data 3 (Demo.world_of [] Last_3_hours)
                 = (Ok 0%nat,
                    snd (_generate_sample_data 3 (Demo.world_of [] Last_3_hours))))
    by (vm_compute; reflexivity).
  destruct (generated_row 3 (Demo.world_of [] Last_3_hours) 2) as [s|] eqn:E;
    [|vm_compute in E; discriminate].
  exists s. split; [reflexivity|].
  unfold generated_row in E. rewrite Hrun in E.
  destruct (frame_at (snd (_generate_sample_data 3 (Demo.world_of [] Last_3_hours)))
                     0%nat) as [df|] eqn:Hdf; [|discriminate].
  apply (generated_heading_wrapped _ _ 3 0%nat df Hrun Hdf 2%nat s E).
  vm_compute. reflexivity.
Defined.

(** C5, as stated with 360 excluded, fails.  With 120 rows and variates
    that are all [-1] except the last heading step, [-(1 + 85 * 2^-52)],
    the steps are 119 times [-1.5] and once [-1.5000000000000284]; their sum
    is [-180.00000000000003], 180 plus the sum is [-2^-45], and its
    remainder by 360 is [-2^-45 + 360], which rounds to 360.0: the heading
    of the last row is 360.0. *)
Lemma heading_reaches_360 :
  (forall k, is_finite (gauss_tape Demo.edge_world k) = true) /\
  option_map heading_deg (generated_row 120 Demo.edge_world 119)
  = Some (of_int 360) /\
  ltb (of_int 360) (of_int 360) = false.
Proof.
  split; [|split].
  - intros k. simpl. unfold Demo.edge_tape. destruct (Nat.eqb k 599); reflexivity.
  - vm_compute. reflexivity.
  - reflexivity.
Qed.

(* ================================================================== *)
(** * The mission overview *)

Lemma iloc_from_end (df : DataFrame) (k : nat) :
  (1 <= k <= List.length df)%nat ->
  exists s, nth_error df (List.length df - k) = Some s /\
            iloc df (- Z.of_nat k) = Ok s.
Proof.
  intros Hk. unfold iloc.
  destruct (Z.ltb_spec (- Z.of_nat k) 0) as [_|]; [|lia].
  replace (0 <=? Z.of_nat (List.length df) + - Z.of_nat k) with true
    by (symmetry; apply Z.leb_le; lia).
  replace (Z.of_nat (List.length df) + - Z.of_nat k <? Z.of_nat (List.length df))
    with true by (symmetry; apply Z.ltb_lt; lia).
  replace (Z.to_nat (Z.of_nat (List.length df) + - Z.of_nat k))
    with (List.length df - k)%nat by lia.
  simpl andb. cbv iota.
  destruct (nth_error df (List.length df - k)) as [s|] eqn:E.
  - exists s. auto.
  - apply nth_error_None in E. lia.
Qed.

Lemma iloc_before_start (df : DataFrame) (k : nat) :
  (List.length df < k)%nat -> iloc df (- Z.of_nat k) = Raise IndexError.
Proof.
  intros Hk. unfold iloc.
  destruct (Z.ltb_spec (- Z.of_nat k) 0) as [_|]; [|lia].
  replace (0 <=? Z.of_nat (List.length df) + - Z.of_nat k) with false
    by (symmetry; apply Z.leb_gt; lia).
  reflexivity.
Qed.

Lemma mission_at_inv (w : world) (r : ref) (m : MissionStatus) :
  mission_at w r = Some m -> nth_error (heap w) r = Some (MissionObj m).
Proof.
  unfold mission_at.
  destruct (nth_error (heap w) r) as [[| |]|]; try discriminate. congruence.
Qed.

Lemma frame_at_inv (w : world) (r : ref) (df : DataFrame) :
  frame_at w r = Some df -> nth_error (heap w) r = Some (FrameObj df).
Proof.
  unfold frame_at.
  destruct (nth_error (heap w) r) as [[| |]|]; try discriminate. congruence.
Qed.

Ltac run_script_step :=
  cbv [bind emit utcnow mission_of frame_of deref ret lift];
  cbn [set_page set_clock_reads set_heap heap page clock_reads utc_clock
       gauss_tape gauss_drawn radio_choice].

(** C3 (amended).  [mission_overview] needs two rows.  On a series of at
    least two rows it renders the depth, temperature and power metrics with
    their deltas, each the value of the last row minus the value of the row
    before it, and does not raise.  On a series of fewer than two rows it
    raises [IndexError] after the eight widgets of the mission details: no
    delta is skipped or reported as unavailable. *)
Theorem mission_overview_needs_two_rows
        (w : world) (st df : ref) (m : MissionStatus) (frame : DataFrame) :
  mission_at w st = Some m ->
  frame_at w df = Some frame ->
  ((2 <= List.length frame)%nat ->
   exists w' latest previous,
     nth_error frame (List.length frame - 1) = Some latest /\
     nth_error frame (List.length frame - 2) = Some previous /\
     mission_overview st df w = (Ok tt, w') /\
     heap w' = heap w /\
     In (Metric 0 "Depth"
                [FmtFloat ",.0f" (depth_m latest); Lit " m"]
                (Some [FmtFloat "+.1f" (sub (depth_m latest) (depth_m previous));
                       Lit " m"]))
        (page w') /\
     In (Metric 1 "Temperature"
                [FmtFloat ".1f" (temperature_c latest); Lit " °C"]
                (Some [FmtFloat "+.2f"
                                (sub (temperature_c latest) (temperature_c previous));
                       Lit " °C"]))
        (page w') /\
     In (Metric 3 "Power Reserve"
                [FmtFloat ".0f" (power_pct latest); Lit "%"]
                (Some [FmtFloat "+.1f" (sub (power_pct latest) (power_pct previous));
                       Lit "%"]))
        (page w'))
  /\ ((List.length frame < 2)%nat ->
      exists w',
        mission_overview st df w = (Raise IndexError, w') /\
        heap w' = heap w /\
        List.length (page w') = (List.length (page w) + 8)%nat).
Proof.
  intros Hm Hf. apply mission_at_inv in Hm. apply frame_at_inv in Hf.
  split.
  - intros Hlen.
    destruct (iloc_from_end frame 1) as (latest & Hl & Hil); [lia|].
    destruct (iloc_from_end frame 2) as (previous & Hp & Hip); [lia|].
    change (- Z.of_nat 1) with (-1) in Hil. change (- Z.of_nat 2) with (-2) in Hip.
    unfold mission_overview. run_script_step.
    rewrite Hm. run_script_step. rewrite Hf. run_script_step.
    rewrite Hil, Hip.
    eexists _, latest, previous.
    split; [exact Hl|]. split; [exact Hp|]. split; [reflexivity|].
    split; [reflexivity|].
    cbn [page set_page].
    split; [|split].
    + apply in_or_app. left. apply in_or_app. left. apply in_or_app. left.
      apply in_or_app. right. left. reflexivity.
    + apply in_or_app. left. apply in_or_app. left.
      apply in_or_app. right. left. reflexivity.
    + apply in_or_app. right. left. reflexivity.
  - intros Hlen.
    unfold mission_overview. run_script_step.
    rewrite Hm. run_script_step. rewrite Hf. run_script_step.
    destruct frame as [|s0 [|s1 frame]]; [| |simpl in Hlen; lia].
    + change (iloc [] (-1)) with (@Raise TelemetrySample IndexError).
      eexists. split; [reflexivity|]. split; [reflexivity|].
      cbn [page set_page]. rewrite !length_app. simpl. lia.
    + change (iloc [s0] (-1)) with (Ok s0).
      change (iloc [s0] (-2)) with (@Raise TelemetrySample IndexError).
      eexists. split; [reflexivity|]. split; [reflexivity|].
      cbn [page set_page]. rewrite !length_app. simpl. lia.
Qed.

Lemma mission_overview_needs_two_rows_witness :
  exists w',
    mission_overview 0%nat 1%nat
      (Demo.world_of [MissionObj Demo.mission; FrameObj (Demo.series 10)]
                     Last_3_hours)
    = (Ok tt, w').
Proof.
  destruct (mission_overview_needs_two_rows
              (Demo.world_of [MissionObj Demo.mission; FrameObj (Demo.series 10)]
                             Last_3_hours)
              0%nat 1%nat Demo.mission (Demo.series 10) eq_refl eq_refl)
    as [H _].
  assert (Hlen : (2 <= List.length (Demo.series 10))%nat)
    by (vm_compute; repeat constructor).
  destruct (H Hlen) as (w' & latest & previous & _ & _ & Hrun & _).
  exists w'. exact Hrun.
Defined.

(** C3, as stated, fails: on a series with a single sample the overview
    raises [IndexError]. *)
Lemma mission_overview_single_sample :
  List.length (Demo.series 1) = 1%nat /\
  fst (mission_overview 0%nat 1%nat
         (Demo.world_of [MissionObj Demo.mission; FrameObj (Demo.series 1)]
                        Last_3_hours))
  = Raise IndexError.
Proof. split; reflexivity. Qed.

(* ================================================================== *)
(** * The mission record during a run *)

Lemma mission_at_alloc (w w0 : world) (o : object) (r : ref) :
  heap w0 = heap w ++ [o] ->
  (forall m, o <> MissionObj m) ->
  mission_at w0 r = mission_at w r.
Proof.
  intros Hh Ho. unfold mission_at. rewrite Hh.
  destruct (Nat.lt_ge_cases r (List.length (heap w))) as [Hlt|Hge].
  - rewrite nth_error_app1 by exact Hlt. reflexivity.
  - rewrite nth_error_app2 by exact Hge.
    replace (nth_error (heap w) r) with (@None object)
      by (symmetry; apply nth_error_None; exact Hge).
    destruct (r - List.length (heap w))%nat as [|k]; simpl.
    + destruct o; try reflexivity. exfalso. apply (Ho m). reflexivity.
    + destruct k; reflexivity.
Qed.

Lemma list_set_new {A : Type} (l : list A) (x y : A) :
  list_set (l ++ [x]) (List.length l) y = l ++ [y].
Proof. induction l as [|a l IH]; simpl; [reflexivity | f_equal; exact IH]. Qed.

Lemma missions_fixed_ret {A : Type} (a : A) : missions_fixed (ret a).
Proof. intros w r. reflexivity. Qed.

Lemma missions_fixed_lift {A : Type} (x : result A) : missions_fixed (lift x).
Proof. intros w r. reflexivity. Qed.

Lemma missions_fixed_emit (wd : widget) : missions_fixed (emit wd).
Proof. intros w r. reflexivity. Qed.

Lemma missions_fixed_utcnow : missions_fixed utcnow.
Proof. intros w r. reflexivity. Qed.

Lemma missions_fixed_deref (r0 : ref) : missions_fixed (deref r0).
Proof.
  intros w r. unfold deref. destruct (nth_error (heap w) r0); reflexivity.
Qed.

Lemma missions_fixed_radio (label : string) (options : list time_range) (i : nat) :
  missions_fixed (sidebar_radio label options i).
Proof. intros w r. reflexivity. Qed.

Lemma missions_fixed_normal (loc scale : float64) (size : Z) :
  missions_fixed (np_random_normal loc scale size).
Proof.
  intros w r. unfold np_random_normal. destruct (size <? 0); reflexivity.
Qed.

Lemma missions_fixed_alloc_frame (df : DataFrame) :
  missions_fixed (alloc (FrameObj df)).
Proof.
  intros w r. apply (mission_at_alloc w _ (FrameObj df)); [reflexivity|].
  intros m. discriminate.
Qed.

Lemma missions_fixed_bind {A B : Type} (c : M A) (k : A -> M B) :
  missions_fixed c -> (forall a, missions_fixed (k a)) ->
  missions_fixed (bind c k).
Proof.
  intros Hc Hk w r. unfold bind. specialize (Hc w r).
  destruct (c w) as [[a|e] w1]; simpl in Hc.
  - rewrite (Hk a w1 r). exact Hc.
  - exact Hc.
Qed.

Ltac missions_step :=
  first
    [ apply missions_fixed_bind; [|intros ?]
    | apply missions_fixed_emit
    | apply missions_fixed_ret
    | apply missions_fixed_lift
    | apply missions_fixed_utcnow
    | apply missions_fixed_deref
    | apply missions_fixed_radio
    | apply missions_fixed_normal
    | apply missions_fixed_alloc_frame
    | match goal with
      | |- missions_fixed (match ?x with _ => _ end) => destruct x
      end ].

Lemma missions_fixed_generate (num_records : Z) :
  missions_fixed (_generate_sample_data num_records).
Proof. unfold _generate_sample_data. cbv zeta. repeat missions_step. Qed.

Lemma missions_fixed_sidebar_filters (df : ref) :
  missions_fixed (sidebar_filters df).
Proof.
  unfold sidebar_filters, filter_by_minutes, frame_of. cbv zeta.
  repeat missions_step.
Qed.

Lemma missions_fixed_mission_overview (st df : ref) :
  missions_fixed (mission_overview st df).
Proof.
  unfold mission_overview, mission_of, frame_of. cbv zeta.
  repeat missions_step.
Qed.

Lemma missions_fixed_plot_timeseries (df : ref) :
  missions_fixed (plot_timeseries df).
Proof. unfold plot_timeseries, frame_of. repeat missions_step. Qed.

Lemma missions_fixed_engineering_panel (df : ref) :
  missions_fixed (engineering_panel df).
Proof. unfold engineering_panel, frame_of. repeat missions_step. Qed.

(** The table works on a copy: the two in-place updates hit the object
    that the function has just created. *)
Lemma telemetry_table_run (df : ref) (w : world) (frame : DataFrame) :
  frame_at w df = Some frame ->
  exists p,
    telemetry_table df w
    = (Ok tt,
       set_page p
         (set_heap
            (heap w ++
               [TableObj table_columns
                  (map (fun s => ([FmtTime "%Y-%m-%d %H:%M" (timestamp s)], s))
                       frame)])
            w))
    /\ p = (page w ++ [Subheader "Telemetry Table"])
           ++ [Table table_columns
                 (rev (tail 50
                         (map (fun s => ([FmtTime "%Y-%m-%d %H:%M" (timestamp s)], s))
                              frame)))].
Proof.
  intros Hf. apply frame_at_inv in Hf.
  eexists. split; [|reflexivity].
  unfold telemetry_table. cbv [store alloc]. run_script_step.
  rewrite Hf. cbv zeta. run_script_step.
  rewrite !list_set_new. reflexivity.
Qed.

Lemma missions_fixed_telemetry_table (df : ref) :
  missions_fixed (telemetry_table df).
Proof.
  intros w r.
  destruct (frame_at w df) as [frame|] eqn:Hf.
  - destruct (telemetry_table_run df w frame Hf) as (p & -> & _).
    apply (mission_at_alloc w _ (TableObj table_columns
       (map (fun s => ([FmtTime "%Y-%m-%d %H:%M" (timestamp s)], s)) frame)));
      [reflexivity | intros m; discriminate].
  - unfold frame_at in Hf. unfold telemetry_table. cbv [store alloc].
    run_script_step.
    destruct (nth_error (heap w) df) as [[d| |]|]; try discriminate; reflexivity.
Qed.

Lemma bind_ok_inv {A B : Type} (c : M A) (k : A -> M B) (w : world) (b : B) :
  fst (bind c k w) = Ok b ->
  exists a w1, c w = (Ok a, w1) /\ fst (k a w1) = Ok b.
Proof.
  unfold bind. destruct (c w) as [[a|e] w1]; simpl; intros H.
  - exists a, w1. auto.
  - discriminate.
Qed.

Lemma mission_at_new (w w1 : world) (m : MissionStatus) (r : ref) :
  heap w1 = heap w ++ [MissionObj m] ->
  mission_at w1 r
  = if Nat.eqb r (List.length (heap w)) then Some m else mission_at w r.
Proof.
  intros Hh. unfold mission_at. rewrite Hh.
  destruct (Nat.eqb_spec r (List.length (heap w))) as [->|Hne].
  - rewrite nth_error_app2, Nat.sub_diag by apply Nat.le_refl. reflexivity.
  - destruct (Nat.lt_ge_cases r (List.length (heap w))) as [Hlt|Hge].
    + rewrite nth_error_app1 by exact Hlt. reflexivity.
    + rewrite nth_error_app2 by exact Hge.
      replace (nth_error (heap w) r) with (@None object)
        by (symmetry; apply nth_error_None; exact Hge).
      destruct (r - List.length (heap w))%nat as [|k] eqn:E; [lia|].
      destruct k; reflexivity.
Qed.

Lemma MISSION_run (w : world) (start : Datetime.datetime) :
  Res.bind (Datetime.of_hours_minutes 3 27)
           (Datetime.minus (utc_clock w (clock_reads w))) = Ok start ->
  MISSION w
  = (Ok (List.length (heap w)),
     set_heap
       (heap w ++
          [MissionObj
             {| mission_name := "Poseidon-7 Survey";
                objective := "Map subsea pipeline integrity and capture HD imagery";
                location := "North Sea Block 15";
                pilot := "Casey Morgan";
                supervisor := "Lt. Priya Desai";
                start_time := start;
                status := "Active";
                notes := "Monitoring cross-current turbulence; maintain depth < 350m." |}])
       (set_clock_reads (S (clock_reads w)) w)).
Proof.
  intros H. unfold MISSION. cbv [alloc]. run_script_step.
  rewrite H. reflexivity.
Qed.

Lemma MISSION_ref (w w' : world) (r : ref) :
  MISSION w = (Ok r, w') -> r = List.length (heap w).
Proof.
  unfold MISSION. cbv [alloc]. run_script_step.
  destruct (Res.bind (Datetime.of_hours_minutes 3 27)
                     (Datetime.minus (utc_clock w (clock_reads w))));
    [|discriminate].
  intros H. injection H as <- _. reflexivity.
Qed.

(** C9.  The script creates one mission record, with the eight fixed
    values of the source and its start time 3 h 27 min before the clock
    reading; whatever the rest of the run does, and whether it ends normally
    or with an exception, that record is the same at the end, no other
    mission record exists that did not exist before, and the global
    [MISSION] refers to it.  [mission_overview], the one function that
    receives the record, changes no mission record. *)
Theorem MISSION_fixed_during_run (w : world) (start : Datetime.datetime) :
  Res.bind (Datetime.of_hours_minutes 3 27)
           (Datetime.minus (utc_clock w (clock_reads w))) = Ok start ->
  exists m,
    mission_name m = "Poseidon-7 Survey" /\
    objective m = "Map subsea pipeline integrity and capture HD imagery" /\
    location m = "North Sea Block 15" /\
    pilot m = "Casey Morgan" /\
    supervisor m = "Lt. Priya Desai" /\
    start_time m = start /\
    status m = "Active" /\
    notes m = "Monitoring cross-current turbulence; maintain depth < 350m." /\
    (forall r,
        mission_at (snd (script w)) r
        = if Nat.eqb r (List.length (heap w)) then Some m else mission_at w r) /\
    (forall g, fst (script w) = Ok g -> g_MISSION g = List.length (heap w)) /\
    (forall st df, missions_fixed (mission_overview st df)).
Proof.
  intros Hstart.
  exists {| mission_name := "Poseidon-7 Survey";
            objective := "Map subsea pipeline integrity and capture HD imagery";
            location := "North Sea Block 15";
            pilot := "Casey Morgan";
            supervisor := "Lt. Priya Desai";
            start_time := start;
            status := "Active";
            notes := "Monitoring cross-current turbulence; maintain depth < 350m." |}.
  do 8 (split; [reflexivity|]).
  split; [|split].
  - intros r. unfold script.
    rewrite (bind_run (emit _) _ w _ tt eq_refl). cbv beta.
    erewrite bind_run;
      [|apply (MISSION_run
                 (set_page (page w ++ [PageConfig "ROV Operations Dashboard"]) w)
                 start Hstart)].
    cbv beta.
    match goal with
    | |- mission_at (snd (?K ?w1)) r = _ =>
        assert (HK : missions_fixed K)
    end.
    { unfold telemetry_df.
      repeat first
             [ apply missions_fixed_generate
             | apply missions_fixed_sidebar_filters
             | apply missions_fixed_mission_overview
             | apply missions_fixed_plot_timeseries
             | apply missions_fixed_engineering_panel
             | apply missions_fixed_telemetry_table
             | missions_step ]. }
    rewrite HK. apply mission_at_new. reflexivity.
  - intros g H. unfold script in H.
    apply bind_ok_inv in H as (u & w0 & H0 & H).
    apply bind_ok_inv in H as (mission & w1 & HM & H).
    do 8 (apply bind_ok_inv in H as (? & ? & _ & H)).
    unfold ret in H. simpl in H. injection H as <-. simpl.
    apply MISSION_ref in HM. rewrite HM.
    unfold emit in H0. injection H0 as _ <-. reflexivity.
  - intros st df. apply missions_fixed_mission_overview.
Qed.

Lemma MISSION_fixed_during_run_witness :
  exists m,
    mission_at (snd (script (Demo.world_of [] Last_3_hours))) 0%nat = Some m /\
    pilot m = "Casey Morgan" /\
    start_time m = Demo.midnight - 12420000000.
Proof.
  destruct (MISSION_fixed_during_run (Demo.world_of [] Last_3_hours)
              (Demo.midnight - 12420000000) eq_refl)
    as (m & _ & _ & _ & Hp & _ & Hs & _ & _ & Hat & _).
  exists m. split; [exact (Hat 0%nat) | split; [exact Hp | exact Hs]].
Defined.

(* ================================================================== *)
(** * The generator: errors and effects *)

(** When the oldest of the [N] instants would lie before [datetime.min],
    the generator raises [OverflowError]; it has read the clock, and has
    drawn no variate and created no object. *)
Theorem generate_before_datetime_min (w : world) (N : Z) :
  1 <= N ->
  utc_clock w (clock_reads w) - (N - 1) * stride < 0 ->
  _generate_sample_data N w
  = (Raise OverflowError, set_clock_reads (S (clock_reads w)) w).
Proof.
  intros HN Hlo. rewrite generate_eq.
  rewrite (mapM_raise (stamp (utc_clock w (clock_reads w))) (range N)
                      (N - 1) OverflowError).
  - reflexivity.
  - apply range_In. lia.
  - apply stamp_overflow. exact Hlo.
  - intros y e. apply stamp_raises.
Qed.

Lemma generate_before_datetime_min_witness :
  _generate_sample_data 300000000 (Demo.world_of [] Last_3_hours)
  = (Raise OverflowError,
     set_clock_reads 1 (Demo.world_of [] Last_3_hours)).
Proof.
  apply (generate_before_datetime_min (Demo.world_of [] Last_3_hours) 300000000).
  - vm_compute. discriminate.
  - reflexivity.
Defined.

(** A negative number of records makes [np.linspace] raise [ValueError]:
    the clock has been read, nothing has been drawn or created. *)
Theorem generate_negative_count (w : world) (N : Z) :
  N < 0 ->
  _generate_sample_data N w
  = (Raise ValueError, set_clock_reads (S (clock_reads w)) w).
Proof.
  intros HN. rewrite generate_eq.
  unfold range. replace (Z.to_nat N) with 0%nat by lia.
  simpl Res.mapM. unfold np_linspace.
  destruct (Z.ltb_spec N 0); [reflexivity | lia].
Qed.

Lemma generate_negative_count_witness :
  _generate_sample_data (-1) (Demo.world_of [] Last_3_hours)
  = (Raise ValueError, set_clock_reads 1 (Demo.world_of [] Last_3_hours)).
Proof.
  apply (generate_negative_count (Demo.world_of [] Last_3_hours) (-1)).
  reflexivity.
Defined.

(** A successful call of the generator reads the clock once, draws exactly
    [6 N] variates, creates exactly one object, the frame of [N] rows that
    it returns, and renders nothing. *)
Theorem generate_effects (w w' : world) (N : Z) (r : ref) :
  _generate_sample_data N w = (Ok r, w') ->
  r = List.length (heap w) /\
  clock_reads w' = S (clock_reads w) /\
  gauss_drawn w' = (gauss_drawn w + 6 * Z.to_nat N)%nat /\
  page w' = page w /\
  radio_choice w' = radio_choice w /\
  exists df,
    heap w' = heap w ++ [FrameObj df] /\
    Z.of_nat (List.length df) = N.
Proof.
  rewrite generate_eq.
  destruct (Res.mapM (stamp (utc_clock w (clock_reads w))) (range N))
    as [stamps|e] eqn:Es; [|discriminate].
  destruct (np_linspace (of_int 100) (of_int 350) N)
    as [ramp|e] eqn:Er; [|discriminate].
  intros H.
  assert (Hr : r = List.length (heap w)) by congruence.
  assert (Hw : w' = generated_world N w (generated_frame N w stamps ramp))
    by congruence.
  subst r w'.
  destruct (np_linspace_inv _ _ _ _ Er) as [Hn _].
  apply mapM_length in Es. rewrite range_length in Es.
  split; [reflexivity|]. split; [reflexivity|].
  split; [unfold generated_world; simpl; lia|].
  split; [reflexivity|]. split; [reflexivity|].
  exists (generated_frame N w stamps ramp). split; [reflexivity|].
  rewrite generated_frame_length.
  rewrite <- (Z2Nat.id N Hn). f_equal. exact Es.
Qed.

Lemma generate_effects_witness :
  gauss_drawn (snd (_generate_sample_data 3 (Demo.world_of [] Last_3_hours)))
  = 18%nat.
Proof.
  assert (Hrun : _generate_sample_data 3 (Demo.world_of [] Last_3_hours)
                 = (Ok 0%nat,
                    snd (_generate_sample_data 3 (Demo.world_of [] Last_3_hours))))
    by (vm_compute; reflexivity).
  exact (proj1 (proj2 (proj2 (generate_effects _ _ 3 0%nat Hrun)))).
Defined.

(* ================================================================== *)
(** * The filter: wider windows, the narrowest window, sharing *)

Lemma filter_filter_stronger {A : Type} (p q : A -> bool) (l : list A) :
  (forall x, p x = true -> q x = true) ->
  filter p (filter q l) = filter p l.
Proof.
  intros H. induction l as [|x l IH]; simpl; [reflexivity|].
  destruct (q x) eqn:Eq; simpl.
  - rewrite IH. reflexivity.
  - destruct (p x) eqn:Ep; [|exact IH].
    rewrite (H x Ep) in Eq. discriminate.
Qed.

Lemma window_rows_monotone (m1 m2 : Z) (df : DataFrame) :
  m1 <= m2 -> subseq (window_rows m1 df) (window_rows m2 df).
Proof.
  intros Hle. unfold window_rows.
  destruct (timestamp_max df) as [t|]; simpl option_map.
  - rewrite <- (filter_filter_stronger
                  (at_or_after (Some (t - m1 * Datetime.us_per_minute)))
                  (at_or_after (Some (t - m2 * Datetime.us_per_minute)))).
    + apply subseq_filter.
    + intros s Hs. simpl in *. apply Z.leb_le in Hs. apply Z.leb_le.
      unfold Datetime.us_per_minute in *. lia.
  - rewrite !filter_none by reflexivity. constructor.
Qed.

Lemma subseq_length {A : Type} (l1 l2 : list A) :
  subseq l1 l2 -> (List.length l1 <= List.length l2)%nat.
Proof. induction 1; simpl; lia. Qed.

Lemma sidebar_filters_rows (r : ref) (w : world) (df : DataFrame) :
  frame_at w r = Some df ->
  exists r' w',
    sidebar_filters r w = (Ok r', w') /\
    frame_at w' r'
    = Some (match time_options (radio_choice w) with
            | Some m => window_rows m df
            | None => df
            end).
Proof.
  intros Hdf. rewrite sidebar_filters_run.
  destruct (time_options (radio_choice w)) as [m|] eqn:Em.
  - pose proof (selectable_minutes_ok m (time_options_values _ _ Em)) as Hm.
    rewrite (filter_by_minutes_run m r (sidebar_rendered w) df Hm Hdf).
    eexists _, _. split; [reflexivity | apply frame_at_new].
  - simpl. eexists _, _. split; [reflexivity | exact Hdf].
Qed.

(** A wider choice in the radio button shows at least the rows of a
    narrower one: on the same series, the rows kept under [k1] are a
    subsequence of the rows kept under any [k2] that is as wide or wider,
    "All data" being the widest. *)
Theorem sidebar_filters_monotone
        (w : world) (r : ref) (df : DataFrame) (k1 k2 : time_range) :
  frame_at w r = Some df ->
  wider_or_same k1 k2 ->
  exists r1 w1 out1 r2 w2 out2,
    sidebar_filters r (set_radio_choice k1 w) = (Ok r1, w1) /\
    frame_at w1 r1 = Some out1 /\
    sidebar_filters r (set_radio_choice k2 w) = (Ok r2, w2) /\
    frame_at w2 r2 = Some out2 /\
    subseq out1 out2 /\
    (List.length out1 <= List.length out2)%nat.
Proof.
  intros Hdf Hw.
  destruct (sidebar_filters_rows r (set_radio_choice k1 w) df Hdf)
    as (r1 & w1 & Hrun1 & Hout1).
  destruct (sidebar_filters_rows r (set_radio_choice k2 w) df Hdf)
    as (r2 & w2 & Hrun2 & Hout2).
  change (radio_choice (set_radio_choice k1 w)) with k1 in Hout1.
  change (radio_choice (set_radio_choice k2 w)) with k2 in Hout2.
  assert (Hsub : subseq
                   (match time_options k1 with
                    | Some m => window_rows m df | None => df end)
                   (match time_options k2 with
                    | Some m => window_rows m df | None => df end)).
  { unfold wider_or_same in Hw.
    destruct (time_options k1) as [m1|], (time_options k2) as [m2|].
    - apply window_rows_monotone. exact Hw.
    - apply window_rows_subseq.
    - contradiction.
    - apply subseq_refl. }
  eexists r1, w1, _, r2, w2, _.
  split; [exact Hrun1|]. split; [exact Hout1|].
  split; [exact Hrun2|]. split; [exact Hout2|].
  split; [exact Hsub | apply subseq_length; exact Hsub].
Qed.

Lemma sidebar_filters_monotone_witness :
  exists r1 w1 out1 r2 w2 out2,
    sidebar_filters 0%nat
      (set_radio_choice Last_30_minutes
         (Demo.world_of [FrameObj (Demo.series 10)] Last_3_hours)) = (Ok r1, w1) /\
    frame_at w1 r1 = Some out1 /\
    sidebar_filters 0%nat
      (set_radio_choice Last_1_hour
         (Demo.world_of [FrameObj (Demo.series 10)] Last_3_hours)) = (Ok r2, w2) /\
    frame_at w2 r2 = Some out2 /\
    (List.length out1 <= List.length out2)%nat.
Proof.
  assert (Hw : wider_or_same Last_30_minutes Last_1_hour)
    by (vm_compute; discriminate).
  destruct (sidebar_filters_monotone
              (Demo.world_of [FrameObj (Demo.series 10)] Last_3_hours)
              0%nat (Demo.series 10) Last_30_minutes Last_1_hour eq_refl Hw)
    as (r1 & w1 & out1 & r2 & w2 & out2 & H1 & H2 & H3 & H4 & _ & H5).
  exists r1, w1, out1, r2, w2, out2. auto.
Defined.

(** With a window of zero minutes the filter keeps exactly the rows that
    carry the maximum timestamp of the series. *)
Theorem filter_zero_window (w : world) (r : ref) (df : DataFrame) :
  frame_at w r = Some df ->
  exists r' w' out,
    filter_by_minutes (Some 0) r w = (Ok r', w') /\
    frame_at w' r' = Some out /\
    subseq out df /\
    forall s, In s out <-> In s df /\ latest_instant df (timestamp s).
Proof.
  intros Hdf.
  assert (H0 : timedelta_minutes_ok 0) by (unfold timedelta_minutes_ok; lia).
  rewrite (filter_by_minutes_run 0 r w df H0 Hdf).
  eexists _, _, (window_rows 0 df).
  split; [reflexivity|]. split; [apply frame_at_new|].
  split; [apply window_rows_subseq|].
  intros s. destruct df as [|s0 df0] eqn:Edf.
  - simpl. split; [contradiction | intros [[] _]].
  - rewrite <- Edf.
    destruct (timestamp_max_nonempty df) as [t Ht]; [congruence|].
    apply timestamp_max_latest in Ht.
    rewrite (window_rows_latest 0 df t Ht). rewrite filter_In. split.
    + intros [Hin Hle]. split; [exact Hin|].
      apply Z.leb_le in Hle. pose proof (proj2 Ht s Hin) as Hub.
      replace (timestamp s) with t by lia. exact Ht.
    + intros [Hin Hl]. split; [exact Hin|].
      rewrite (latest_instant_unique df _ _ Hl Ht). apply Z.leb_le. lia.
Qed.

Lemma filter_zero_window_witness :
  exists r' w',
    filter_by_minutes (Some 0) 0%nat
      (Demo.world_of [FrameObj (Demo.series 10)] Last_3_hours) = (Ok r', w') /\
    frame_at w' r' = Some (skipn 9 (Demo.series 10)).
Proof.
  destruct (filter_zero_window
              (Demo.world_of [FrameObj (Demo.series 10)] Last_3_hours)
              0%nat (Demo.series 10) eq_refl)
    as (r' & w' & out & Hrun & Hout & _).
  exists r', w'. split; [exact Hrun|].
  assert (E : filter_by_minutes (Some 0) 0%nat
                (Demo.world_of [FrameObj (Demo.series 10)] Last_3_hours)
              = (Ok 1%nat,
                 snd (filter_by_minutes (Some 0) 0%nat
                        (Demo.world_of [FrameObj (Demo.series 10)] Last_3_hours))))
    by (vm_compute; reflexivity).
  rewrite E in Hrun. injection Hrun as <- <-. vm_compute. reflexivity.
Defined.

(** "All data" hands back the very object it was given and creates
    nothing; a window always returns a new object, distinct from the input
    even when every row is kept, and creates nothing else. *)
Theorem sidebar_filters_sharing (w : world) (r : ref) (df : DataFrame) :
  frame_at w r = Some df ->
  (time_options (radio_choice w) = None ->
   exists w', sidebar_filters r w = (Ok r, w') /\ heap w' = heap w)
  /\ (forall W, time_options (radio_choice w) = Some W ->
      exists r' w' out,
        sidebar_filters r w = (Ok r', w') /\
        r' = List.length (heap w) /\ r' <> r /\ frame_at w r' = None /\
        heap w' = heap w ++ [FrameObj out]).
Proof.
  intros Hdf. split.
  - intros Hn. rewrite sidebar_filters_run, Hn. simpl.
    eexists. split; reflexivity.
  - intros W HW.
    pose proof (selectable_minutes_ok W (time_options_values _ _ HW)) as HWok.
    rewrite sidebar_filters_run, HW.
    rewrite (filter_by_minutes_run W r (sidebar_rendered w) df HWok Hdf).
    eexists _, _, _. split; [reflexivity|]. split; [reflexivity|].
    assert (Hlt : (r < List.length (heap w))%nat).
    { apply frame_at_inv in Hdf. apply nth_error_Some. congruence. }
    split; [simpl; lia|]. split; [|reflexivity].
    unfold frame_at. simpl.
    replace (nth_error (heap w) (List.length (heap w))) with (@None object);
      [reflexivity|].
    symmetry. apply nth_error_None. apply Nat.le_refl.
Qed.

Lemma sidebar_filters_sharing_witness :
  exists r' w',
    sidebar_filters 0%nat
      (Demo.world_of [FrameObj (Demo.series 10)] Last_6_hours) = (Ok r', w') /\
    r' = 1%nat.
Proof.
  destruct (sidebar_filters_sharing
              (Demo.world_of [FrameObj (Demo.series 10)] Last_6_hours)
              0%nat (Demo.series 10) eq_refl) as [_ H].
  destruct (H 360 eq_refl) as (r' & w' & out & Hrun & Hr & _).
  exists r', w'. split; [exact Hrun | exact Hr].
Defined.

(* ================================================================== *)
(** * The generator followed by the filter *)

Lemma filter_threshold {A : Type} (p : A -> bool) (l : list A) (c : nat) :
  (forall i x, nth_error l i = Some x -> p x = negb (Nat.ltb i c)) ->
  filter p l = skipn c l.
Proof.
  revert c. induction l as [|a l IH]; intros c H.
  - destruct c; reflexivity.
  - destruct c as [|c].
    + simpl skipn. apply filter_all. intros x Hx.
      apply In_nth_error in Hx as [i Hi]. rewrite (H i x Hi). reflexivity.
    + simpl. rewrite (H 0%nat a eq_refl). simpl.
      apply IH. intros i x Hi. rewrite (H (S i) x Hi). reflexivity.
Qed.

(** On a series of [n] rows five minutes apart that ends at [T], a window
    of [W >= 0] minutes keeps the last [min n (W / 5 + 1)] rows. *)
Lemma window_rows_progression (df : DataFrame) (T W : Z) :
  df <> [] ->
  (forall i s, nth_error df i = Some s ->
     timestamp s = T - (Z.of_nat (List.length df) - 1 - Z.of_nat i) * stride) ->
  0 <= W ->
  window_rows W df
  = skipn (List.length df - Nat.min (List.length df) (Z.to_nat (W / 5) + 1)) df.
Proof.
  intros Hne Hts HW.
  assert (Hn : (0 < List.length df)%nat)
    by (destruct df; [congruence | simpl; lia]).
  assert (Hlatest : latest_instant df T).
  { split.
    - destruct (nth_error df (List.length df - 1)) as [s|] eqn:E.
      + apply in_map_iff. exists s. split; [|apply (nth_error_In _ _ E)].
        rewrite (Hts _ _ E). unfold stride, Datetime.us_per_minute. lia.
      + apply nth_error_None in E. lia.
    - intros s Hs. apply In_nth_error in Hs as [i Hi].
      assert (i < List.length df)%nat by (apply nth_error_Some; congruence).
      rewrite (Hts _ _ Hi). unfold stride, Datetime.us_per_minute. lia. }
  rewrite (window_rows_latest W df T Hlatest).
  apply filter_threshold. intros i s Hi.
  assert (Hlt : (i < List.length df)%nat) by (apply nth_error_Some; congruence).
  rewrite (Hts _ _ Hi). unfold stride, Datetime.us_per_minute.
  pose proof (Z.div_mod W 5) as Hdm. pose proof (Z.mod_pos_bound W 5) as Hmb.
  assert (Hq : 0 <= W / 5) by (apply Z.div_pos; lia).
  set (q := W / 5) in *. set (m := W mod 5) in *.
  destruct (Nat.ltb_spec i (List.length df
                            - Nat.min (List.length df) (Z.to_nat q + 1)))
    as [Hi'|Hi']; simpl negb.
  - apply Z.leb_gt. lia.
  - apply Z.leb_le. lia.
Qed.

Lemma generate_run_ok (w : world) (N : Z) :
  Datetime.valid (utc_clock w (clock_reads w)) = true ->
  0 <= N ->
  0 <= utc_clock w (clock_reads w) - (N - 1) * stride ->
  exists df,
    _generate_sample_data N w
    = (Ok (List.length (heap w)), generated_world N w df) /\
    List.length df = Z.to_nat N /\
    forall i s, nth_error df i = Some s ->
      timestamp s
      = utc_clock w (clock_reads w)
        - (Z.of_nat (List.length df) - 1 - Z.of_nat i) * stride.
Proof.
  intros Hv HN Hlo. set (T := utc_clock w (clock_reads w)) in *.
  destruct (np_linspace_ok (of_int 100) (of_int 350) N HN) as [ramp Hramp].
  pose proof (stamps_in_range T N Hv Hlo) as Hst.
  set (stamps := map (fun i => T - i * stride) (range N)) in *.
  assert (Hlen : List.length stamps = Z.to_nat N).
  { unfold stamps. rewrite length_map. apply range_length. }
  exists (generated_frame N w stamps ramp).
  split; [|split].
  - rewrite generate_eq. fold T. rewrite Hst, Hramp. reflexivity.
  - rewrite generated_frame_length. exact Hlen.
  - intros i s Hs. rewrite generated_frame_length, Hlen.
    apply generated_frame_row in Hs as (Hi & -> & _).
    apply nth_error_nth. rewrite nth_error_rev.
    destruct (Nat.ltb_spec i (List.length stamps)) as [_|]; [|lia].
    rewrite Hlen in *. unfold stamps.
    rewrite nth_error_map, range_nth_error by lia.
    unfold option_map. f_equal. unfold stride, Datetime.us_per_minute. lia.
Qed.

Lemma generate_then_filter (w : world) (N W : Z) :
  Datetime.valid (utc_clock w (clock_reads w)) = true ->
  1 <= N ->
  0 <= utc_clock w (clock_reads w) - (N - 1) * stride ->
  time_options (radio_choice w) = Some W ->
  exists df w2 out,
    _generate_sample_data N w
    = (Ok (List.length (heap w)), generated_world N w df) /\
    List.length df = Z.to_nat N /\
    sidebar_filters (List.length (heap w)) (generated_world N w df)
    = (Ok (S (List.length (heap w))), w2) /\
    heap w2 = (heap w ++ [FrameObj df]) ++ [FrameObj out] /\
    clock_reads w2 = S (clock_reads w) /\
    utc_clock w2 = utc_clock w /\
    out = skipn (Z.to_nat N - Nat.min (Z.to_nat N) (Z.to_nat (W / 5) + 1)) df /\
    List.length out = Nat.min (Z.to_nat N) (Z.to_nat (W / 5) + 1).
Proof.
  intros Hv HN Hlo HW.
  destruct (generate_run_ok w N Hv ltac:(lia) Hlo) as (df & Hrun & Hlen & Hts).
  pose proof (time_options_values _ _ HW) as HWin.
  pose proof (selectable_minutes_ok W HWin) as HWok.
  assert (HW0 : 0 <= W) by (unfold timedelta_minutes_ok in HWok;
                            simpl in HWin; lia).
  assert (Hne : df <> []) by (intros ->; simpl in Hlen; lia).
  exists df. eexists. exists (window_rows W df).
  split; [exact Hrun|]. split; [exact Hlen|].
  rewrite sidebar_filters_run.
  change (radio_choice (generated_world N w df)) with (radio_choice w).
  rewrite HW.
  rewrite (filter_by_minutes_run W (List.length (heap w))
             (sidebar_rendered (generated_world N w df)) df HWok
             (generated_world_frame N w df)).
  split.
  - f_equal. f_equal. simpl. rewrite length_app. simpl. lia.
  - split; [reflexivity|]. split; [reflexivity|]. split; [reflexivity|].
    rewrite (window_rows_progression df _ W Hne Hts HW0), Hlen.
    split; [reflexivity|]. rewrite length_skipn, Hlen. lia.
Qed.

(** The rows shown for a generated series: when [N >= 1] rows are
    generated and a window of [W] minutes is selected, the filter keeps the
    last [min N (W / 5 + 1)] rows of the series, for instance 7 rows for
    "Last 30 minutes" and 37 rows for "Last 3 hours" when [N >= 37]. *)
Theorem generated_rows_in_window (w : world) (N W : Z) :
  Datetime.valid (utc_clock w (clock_reads w)) = true ->
  1 <= N ->
  0 <= utc_clock w (clock_reads w) - (N - 1) * stride ->
  time_options (radio_choice w) = Some W ->
  exists telemetry w1 df filtered w2 out,
    _generate_sample_data N w = (Ok telemetry, w1) /\
    frame_at w1 telemetry = Some df /\
    sidebar_filters telemetry w1 = (Ok filtered, w2) /\
    frame_at w2 filtered = Some out /\
    out = skipn (Z.to_nat N - Nat.min (Z.to_nat N) (Z.to_nat (W / 5) + 1)) df /\
    Z.of_nat (List.length out) = Z.min N (W / 5 + 1).
Proof.
  intros Hv HN Hlo HW.
  destruct (generate_then_filter w N W Hv HN Hlo HW)
    as (df & w2 & out & Hrun & Hlen & Hfil & Hheap & _ & _ & Hout & Hcount).
  exists (List.length (heap w)), (generated_world N w df), df,
    (S (List.length (heap w))), w2, out.
  split; [exact Hrun|]. split; [apply generated_world_frame|].
  split; [exact Hfil|]. split.
  - unfold frame_at. rewrite Hheap.
    rewrite nth_error_app2 by (rewrite length_app; simpl; lia).
    rewrite length_app. simpl List.length.
    replace (S (List.length (heap w)) - (List.length (heap w) + 1))%nat
      with 0%nat by lia.
    reflexivity.
  - split; [exact Hout|]. rewrite Hcount.
    pose proof (time_options_values _ _ HW) as HWin.
    assert (0 <= W / 5) by (apply Z.div_pos; [simpl in HWin|]; lia).
    lia.
Qed.

Lemma generated_rows_in_window_witness :
  exists telemetry w1 filtered w2 out,
    _generate_sample_data 120 (Demo.world_of [] Last_30_minutes)
    = (Ok telemetry, w1) /\
    sidebar_filters telemetry w1 = (Ok filtered, w2) /\
    frame_at w2 filtered = Some out /\
    Z.of_nat (List.length out) = 7.
Proof.
  assert (HN : 1 <= 120) by (vm_compute; discriminate).
  assert (Hlo : 0 <= utc_clock (Demo.world_of [] Last_30_minutes)
                       (clock_reads (Demo.world_of [] Last_30_minutes))
                     - (120 - 1) * stride)
    by (vm_compute; discriminate).
  destruct (generated_rows_in_window (Demo.world_of [] Last_30_minutes) 120 30
              eq_refl HN Hlo eq_refl)
    as (t & w1 & df & f & w2 & out & H1 & _ & H3 & H4 & _ & H6).
  exists t, w1, f, w2, out. auto.
Defined.

(* ================================================================== *)
(** * Rendering: elapsed time, engineering panel, table *)

Ltac in_rendered :=
  match goal with
  | |- In _ (_ ++ [_]) =>
      apply in_or_app; first [right; left; reflexivity | left; in_rendered]
  end.

(** The elapsed time shown in the mission details is the time of day of
    the duration since the start of the mission: whole days are dropped, the
    hours stay below 24 and the minutes below 60.  The metric is rendered
    whatever the series is, also when the function raises afterwards. *)
Theorem mission_overview_elapsed
        (w : world) (st df : ref) (m : MissionStatus) :
  mission_at w st = Some m ->
  exists h mi,
    In (Metric 2 "Elapsed Time" [FmtInt h; Lit "h "; FmtInt mi; Lit "m"] None)
       (page (snd (mission_overview st df w))) /\
    0 <= h <= 23 /\ 0 <= mi <= 59 /\
    (h * 60 + mi) * Datetime.us_per_minute
    <= (utc_clock w (clock_reads w) - start_time m) mod Datetime.us_per_day
    < (h * 60 + mi + 1) * Datetime.us_per_minute.
Proof.
  intros Hm. apply mission_at_inv in Hm.
  set (d := utc_clock w (clock_reads w) - start_time m).
  exists (timedelta_seconds d / 3600), (timedelta_seconds d mod 3600 / 60).
  split.
  - unfold mission_overview. run_script_step. rewrite Hm. run_script_step.
    fold d.
    destruct (nth_error (heap w) df) as [[frame| |]|];
      run_script_step; try (cbn [snd page set_page]; in_rendered).
    destruct (iloc frame (-1)); [|cbn [snd page set_page]; in_rendered].
    destruct (iloc frame (-2)); cbn [snd page set_page]; in_rendered.
  - unfold timedelta_seconds, Datetime.us_per_day, Datetime.us_per_minute.
    pose proof (Z.mod_pos_bound d 86400000000 ltac:(lia)) as Hd.
    set (x := d mod 86400000000) in *.
    pose proof (Z.div_mod x 1000000 ltac:(lia)) as H1.
    pose proof (Z.mod_pos_bound x 1000000 ltac:(lia)) as H1b.
    set (secs := x / 1000000) in *.
    pose proof (Z.div_mod secs 3600 ltac:(lia)) as H2.
    pose proof (Z.mod_pos_bound secs 3600 ltac:(lia)) as H2b.
    set (hh := secs / 3600) in *. set (rest := secs mod 3600) in *.
    pose proof (Z.div_mod rest 60 ltac:(lia)) as H3.
    pose proof (Z.mod_pos_bound rest 60 ltac:(lia)) as H3b.
    set (mm := rest / 60) in *.
    lia.
Qed.

(** Started 25 h 30 min before the clock reading, the mission shows an
    elapsed time below 24 h. *)
Lemma mission_overview_elapsed_witness :
  exists h mi,
    In (Metric 2 "Elapsed Time" [FmtInt h; Lit "h "; FmtInt mi; Lit "m"] None)
       (page (snd (mission_overview 0%nat 1%nat
                     (Demo.world_of
                        [MissionObj
                           {| mission_name := "Poseidon-7 Survey";
                              objective := "";
                              location := "";
                              pilot := "Casey Morgan";
                              supervisor := "";
                              start_time := Demo.midnight - 91800000000;
                              status := "Active";
                              notes := "" |};
                         FrameObj (Demo.series 10)]
                        Last_3_hours)))) /\
    0 <= h <= 23 /\ 0 <= mi <= 59.
Proof.
  destruct (mission_overview_elapsed
              (Demo.world_of
                 [MissionObj
                    {| mission_name := "Poseidon-7 Survey";
                       objective := "";
                       location := "";
                       pilot := "Casey Morgan";
                       supervisor := "";
                       start_time := Demo.midnight - 91800000000;
                       status := "Active";
                       notes := "" |};
                  FrameObj (Demo.series 10)]
                 Last_3_hours)
              0%nat 1%nat _ eq_refl) as (h & mi & Hin & Hh & Hm & _).
  exists h, mi. auto.
Defined.

Lemma tail_length {A : Type} (n : nat) (l : list A) :
  List.length (tail n l) = Nat.min n (List.length l).
Proof. unfold tail. rewrite length_skipn. lia. Qed.

(** The engineering panel needs one row.  On an empty series it raises
    [IndexError] after its subheader; otherwise it shows the power of the
    last row in the gauge and, in the polar plot, the speed and heading of
    the last 60 rows, or of all rows when there are fewer.  It changes no
    object. *)
Theorem engineering_panel_rows (w : world) (df : ref) (frame : DataFrame) :
  frame_at w df = Some frame ->
  (frame = [] ->
   engineering_panel df w
   = (Raise IndexError,
      set_page (page w ++ [Subheader "Engineering Snapshot"]) w))
  /\ (frame <> [] ->
      exists latest w',
        nth_error frame (List.length frame - 1) = Some latest /\
        engineering_panel df w = (Ok tt, w') /\
        heap w' = heap w /\
        page w'
        = ((page w ++ [Subheader "Engineering Snapshot"])
             ++ [Gauge "Power Reserve" (power_pct latest)])
            ++ [PolarScatter "Heading & Speed (last 60 samples)"
                  (map (fun s => (speed_knots s, heading_deg s))
                       (tail 60 frame))] /\
        List.length (tail 60 frame) = Nat.min 60 (List.length frame)).
Proof.
  intros Hf. apply frame_at_inv in Hf. split.
  - intros ->. unfold engineering_panel. run_script_step. rewrite Hf.
    reflexivity.
  - intros Hne.
    destruct (iloc_from_end frame 1) as (latest & Hl & Hil).
    { destruct frame; [congruence | simpl; lia]. }
    change (- Z.of_nat 1) with (-1) in Hil.
    exists latest. eexists. split; [exact Hl|].
    unfold engineering_panel. run_script_step. rewrite Hf. run_script_step.
    rewrite Hil.
    split; [reflexivity|]. split; [reflexivity|].
    split; [reflexivity | apply tail_length].
Qed.

Lemma engineering_panel_rows_witness :
  engineering_panel 0%nat (Demo.world_of [FrameObj []] Last_3_hours)
  = (Raise IndexError,
     set_page [Subheader "Engineering Snapshot"]
              (Demo.world_of [FrameObj []] Last_3_hours)).
Proof.
  exact (proj1 (engineering_panel_rows
                  (Demo.world_of [FrameObj []] Last_3_hours) 0%nat [] eq_refl)
               eq_refl).
Defined.

(** The table never raises and works on a copy: the series it was given
    is the same afterwards and no existing object has changed.  It shows at
    most 50 rows, the last rows of the series, newest first. *)
Theorem telemetry_table_rows (w : world) (df : ref) (frame : DataFrame) :
  frame_at w df = Some frame ->
  exists w' rows,
    telemetry_table df w = (Ok tt, w') /\
    frame_at w' df = Some frame /\
    objects_kept w w' /\
    In (Table table_columns rows) (page w') /\
    List.length rows = Nat.min 50 (List.length frame) /\
    map snd rows = rev (tail 50 frame).
Proof.
  intros Hf.
  destruct (telemetry_table_run df w frame Hf) as (p & Hrun & Hp).
  set (fmt := fun s : TelemetrySample =>
                ([FmtTime "%Y-%m-%d %H:%M" (timestamp s)], s)) in *.
  eexists _, (rev (tail 50 (map fmt frame))).
  split; [exact Hrun|].
  split; [apply (frame_at_alloc w); exact Hf|].
  split; [apply (objects_kept_alloc w)|].
  split; [|split].
  - cbn [page set_page]. rewrite Hp. apply in_or_app. right. left. reflexivity.
  - rewrite length_rev, tail_length, length_map. reflexivity.
  - rewrite map_rev. f_equal. unfold tail.
    rewrite length_map, <- skipn_map, map_map.
    unfold fmt. simpl. rewrite map_id. reflexivity.
Qed.

Lemma telemetry_table_rows_witness :
  exists w',
    telemetry_table 0%nat
      (Demo.world_of [FrameObj (Demo.series 10)] Last_3_hours) = (Ok tt, w') /\
    frame_at w' 0%nat = Some (Demo.series 10).
Proof.
  destruct (telemetry_table_rows
              (Demo.world_of [FrameObj (Demo.series 10)] Last_3_hours)
              0%nat (Demo.series 10) eq_refl)
    as (w' & rows & Hrun & Hsame & _).
  exists w'. auto.
Defined.

(* ================================================================== *)
(** * The whole script *)

Lemma frame_at_heap (w w' : world) (r : ref) :
  heap w' = heap w -> frame_at w' r = frame_at w r.
Proof. unfold frame_at. intros ->. reflexivity. Qed.

Lemma mission_at_heap (w w' : world) (r : ref) :
  heap w' = heap w -> mission_at w' r = mission_at w r.
Proof. unfold mission_at. intros ->. reflexivity. Qed.

Lemma mission_overview_ok
      (w : world) (st df : ref) (m : MissionStatus) (frame : DataFrame) :
  mission_at w st = Some m ->
  frame_at w df = Some frame ->
  (2 <= List.length frame)%nat ->
  exists w', mission_overview st df w = (Ok tt, w') /\ heap w' = heap w.
Proof.
  intros Hm Hf Hlen. apply mission_at_inv in Hm. apply frame_at_inv in Hf.
  destruct (iloc_from_end frame 1) as (latest & _ & Hil); [lia|].
  destruct (iloc_from_end frame 2) as (previous & _ & Hip); [lia|].
  change (- Z.of_nat 1) with (-1) in Hil. change (- Z.of_nat 2) with (-2) in Hip.
  unfold mission_overview. run_script_step.
  rewrite Hm. run_script_step. rewrite Hf. run_script_step.
  rewrite Hil, Hip.
  eexists. split; reflexivity.
Qed.

Lemma plot_timeseries_ok (w : world) (df : ref) (frame : DataFrame) :
  frame_at w df = Some frame ->
  exists w', plot_timeseries df w = (Ok tt, w') /\ heap w' = heap w.
Proof.
  intros Hf. apply frame_at_inv in Hf.
  unfold plot_timeseries. run_script_step. rewrite Hf.
  eexists. split; reflexivity.
Qed.

Lemma engineering_panel_ok (w : world) (df : ref) (frame : DataFrame) :
  frame_at w df = Some frame ->
  (1 <= List.length frame)%nat ->
  exists w', engineering_panel df w = (Ok tt, w') /\ heap w' = heap w.
Proof.
  intros Hf Hlen. apply frame_at_inv in Hf.
  destruct (iloc_from_end frame 1) as (latest & _ & Hil); [lia|].
  change (- Z.of_nat 1) with (-1) in Hil.
  unfold engineering_panel. run_script_step. rewrite Hf. run_script_step.
  rewrite Hil.
  eexists. split; reflexivity.
Qed.

Lemma mission_start_ok (now : Z) :
  Datetime.valid now = true -> 12420000000 <= now ->
  Res.bind (Datetime.of_hours_minutes 3 27) (Datetime.minus now)
  = Ok (now - 12420000000).
Proof.
  intros Hv Hlo. unfold Datetime.valid in Hv.
  apply andb_true_iff in Hv as [H0 Hmax].
  apply Z.leb_le in H0. apply Z.leb_le in Hmax.
  change (Datetime.of_hours_minutes 3 27) with (@Ok Datetime.timedelta 12420000000).
  unfold Res.bind, Datetime.minus, Datetime.valid.
  replace (0 <=? now - 12420000000) with true
    by (symmetry; apply Z.leb_le; lia).
  replace (now - 12420000000 <=? Datetime.datetime_max) with true
    by (symmetry; apply Z.leb_le; lia).
  reflexivity.
Qed.

Lemma rendering_ok (w : world) (mref tref fref : ref)
      (m : MissionStatus) (shown : DataFrame) :
  mission_at w mref = Some m ->
  frame_at w fref = Some shown ->
  (2 <= List.length shown)%nat ->
  exists w',
    (mission_overview mref fref ;;
     plot_timeseries fref ;;
     engineering_panel fref ;;
     telemetry_table fref ;;
     emit (SidebarMarkdown "---") ;;
     emit (SidebarWrite "This dashboard uses synthetic data for demonstration. Replace the data generation logic with live telemetry integration for production use.") ;;
     ret {| g_MISSION := mref;
            g_telemetry_df := tref;
            g_filtered_df := fref |}) w
    = (Ok {| g_MISSION := mref; g_telemetry_df := tref; g_filtered_df := fref |},
       w') /\
    frame_at w' fref = Some shown.
Proof.
  intros Hm Hf Hlen.
  destruct (mission_overview_ok w mref fref m shown Hm Hf Hlen)
    as (w1 & Hrun1 & Hh1).
  assert (Hf1 : frame_at w1 fref = Some shown)
    by (rewrite (frame_at_heap w w1 fref Hh1); exact Hf).
  destruct (plot_timeseries_ok w1 fref shown Hf1) as (w2 & Hrun2 & Hh2).
  assert (Hf2 : frame_at w2 fref = Some shown)
    by (rewrite (frame_at_heap w1 w2 fref Hh2); exact Hf1).
  destruct (engineering_panel_ok w2 fref shown Hf2 ltac:(lia))
    as (w3 & Hrun3 & Hh3).
  assert (Hf3 : frame_at w3 fref = Some shown)
    by (rewrite (frame_at_heap w2 w3 fref Hh3); exact Hf2).
  destruct (telemetry_table_run fref w3 shown Hf3) as (p & Hrun4 & _).
  rewrite (bind_run _ _ w w1 tt Hrun1).
  rewrite (bind_run _ _ w1 w2 tt Hrun2).
  rewrite (bind_run _ _ w2 w3 tt Hrun3).
  rewrite (bind_run _ _ w3 _ tt Hrun4).
  eexists. split; [reflexivity|].
  apply (frame_at_alloc w3). exact Hf3.
Qed.

Lemma window_rows_count (df : DataFrame) (T W : Z) :
  List.length df = 120%nat ->
  (forall i s, nth_error df i = Some s ->
     timestamp s = T - (Z.of_nat (List.length df) - 1 - Z.of_nat i) * stride) ->
  In W [30; 60; 180; 360] ->
  (7 <= List.length (window_rows W df) <= 120)%nat.
Proof.
  intros Hlen Hts HW.
  assert (Hne : df <> []) by (intros ->; discriminate).
  assert (HW0 : 0 <= W) by (simpl in HW; lia).
  rewrite (window_rows_progression df T W Hne Hts HW0).
  rewrite length_skipn, Hlen.
  simpl in HW. destruct HW as [<-|[<-|[<-|[<-|[]]]]]; vm_compute; lia.
Qed.

(** With a clock that is not within ten hours of [datetime.min], the
    script runs to its end without raising, for every tape and every choice
    in the radio button: the series that reaches the rendering functions has
    between 7 and 120 rows, so the last and the previous row always exist.
    The globals refer to the mission record, to the generated series and to
    the filtered series, which is the generated series itself under
    "All data" and a new object otherwise. *)
Theorem script_succeeds (w : world) :
  Datetime.valid (utc_clock w (clock_reads w)) = true ->
  12420000000 <= utc_clock w (clock_reads w) ->
  Datetime.valid (utc_clock w (S (clock_reads w))) = true ->
  119 * stride <= utc_clock w (S (clock_reads w)) ->
  exists g w' shown,
    script w = (Ok g, w') /\
    g_MISSION g = List.length (heap w) /\
    g_telemetry_df g = S (List.length (heap w)) /\
    g_filtered_df g
    = match time_options (radio_choice w) with
      | Some _ => S (S (List.length (heap w)))
      | None => S (List.length (heap w))
      end /\
    frame_at w' (g_filtered_df g) = Some shown /\
    (7 <= List.length shown <= 120)%nat.
Proof.
  intros Hv0 Hlo0 Hv1 Hlo1.
  unfold script.
  rewrite (bind_run (emit _) _ w _ tt eq_refl). cbv beta.
  set (w0 := set_page (page w ++ [PageConfig "ROV Operations Dashboard"]) w).
  pose proof (MISSION_run w0 _ (mission_start_ok _ Hv0 Hlo0)) as HM.
  rewrite (bind_run MISSION _ w0 _ _ HM). cbv beta.
  set (m0 := {| mission_name := "Poseidon-7 Survey";
                objective := "Map subsea pipeline integrity and capture HD imagery";
                location := "North Sea Block 15";
                pilot := "Casey Morgan";
                supervisor := "Lt. Priya Desai";
                start_time := utc_clock w0 (clock_reads w0) - 12420000000;
                status := "Active";
                notes := "Monitoring cross-current turbulence; maintain depth < 350m." |})
    in *.
  match type of HM with _ = (_, ?x) => set (w1 := x) in * end.
  assert (Hlo1' : 0 <= utc_clock w1 (clock_reads w1) - (120 - 1) * stride).
  { change (utc_clock w1 (clock_reads w1)) with (utc_clock w (S (clock_reads w))).
    unfold stride, Datetime.us_per_minute in *. lia. }
  destruct (generate_run_ok w1 120 Hv1 ltac:(lia) Hlo1') as (df & Hgen & Hlen & Hts).
  unfold telemetry_df.
  rewrite (bind_run _ _ w1 _ _ Hgen). cbv beta.
  set (w2 := generated_world 120 w1 df) in *.
  assert (HL : List.length (heap w1) = S (List.length (heap w))).
  { unfold w1. simpl. rewrite length_app. simpl. lia. }
  assert (Hm2 : mission_at w2 (List.length (heap w0)) = Some m0).
  { unfold w2, generated_world.
    erewrite (mission_at_alloc w1 _ (FrameObj df)); [|reflexivity|intros ?; discriminate].
    rewrite (mission_at_new w0 w1 _ _ eq_refl). rewrite Nat.eqb_refl. reflexivity. }
  assert (Hf2 : frame_at w2 (List.length (heap w1)) = Some df)
    by apply generated_world_frame.
  change (heap w0) with (heap w) in *.
  destruct (time_options (radio_choice w)) as [W|] eqn:EW.
  - pose proof (time_options_values _ _ EW) as HWin.
    pose proof (selectable_minutes_ok W HWin) as HWok.
    assert (Hsf : sidebar_filters (List.length (heap w1)) w2
                  = (Ok (List.length (heap (sidebar_rendered w2))),
                     set_heap (heap (sidebar_rendered w2)
                               ++ [FrameObj (window_rows W df)])
                              (sidebar_rendered w2))).
    { rewrite sidebar_filters_run.
      change (radio_choice w2) with (radio_choice w). rewrite EW.
      apply (filter_by_minutes_run W _ (sidebar_rendered w2) df HWok Hf2). }
    rewrite (bind_run _ _ w2 _ _ Hsf). cbv beta.
    destruct (rendering_ok
                (set_heap (heap (sidebar_rendered w2)
                           ++ [FrameObj (window_rows W df)])
                          (sidebar_rendered w2))
                (List.length (heap w)) (List.length (heap w1))
                (List.length (heap (sidebar_rendered w2)))
                m0 (window_rows W df))
      as (w' & Hrun & Hshown).
    + erewrite (mission_at_alloc (sidebar_rendered w2) _ _);
        [exact Hm2 | reflexivity | intros ?; discriminate].
    + apply (frame_at_new (sidebar_rendered w2)).
    + pose proof (window_rows_count df _ W Hlen Hts HWin). lia.
    + eexists _, w', (window_rows W df).
      split; [exact Hrun|]. split; [reflexivity|].
      split; [exact HL|]. split.
      * cbn [g_filtered_df].
        change (heap (sidebar_rendered w2)) with (heap w1 ++ [FrameObj df]).
        rewrite length_app, HL. simpl. lia.
      * split; [exact Hshown|]. apply (window_rows_count df _ W Hlen Hts HWin).
  - assert (Hsf : sidebar_filters (List.length (heap w1)) w2
                  = (Ok (List.length (heap w1)), sidebar_rendered w2)).
    { rewrite sidebar_filters_run.
      change (radio_choice w2) with (radio_choice w). rewrite EW. reflexivity. }
    rewrite (bind_run _ _ w2 _ _ Hsf). cbv beta.
    destruct (rendering_ok (sidebar_rendered w2) (List.length (heap w))
                           (List.length (heap w1)) (List.length (heap w1))
                           m0 df Hm2 Hf2 ltac:(lia))
      as (w' & Hrun & Hshown).
    eexists _, w', df.
    split; [exact Hrun|]. split; [reflexivity|].
    split; [exact HL|]. split; [exact HL|].
    split; [exact Hshown | lia].
Qed.

Lemma script_succeeds_witness :
  exists g w' shown,
    script (Demo.world_of [] Last_30_minutes) = (Ok g, w') /\
    g_filtered_df g = 2%nat /\
    frame_at w' (g_filtered_df g) = Some shown /\
    (7 <= List.length shown <= 120)%nat.
Proof.
  assert (H0 : 12420000000 <= Demo.midnight) by (vm_compute; discriminate).
  assert (H1 : 119 * stride <= Demo.midnight) by (vm_compute; discriminate).
  destruct (script_succeeds (Demo.world_of [] Last_30_minutes)
              eq_refl H0 eq_refl H1)
    as (g & w' & shown & Hrun & _ & _ & Hf & Hshown & Hlen).
  exists g, w', shown. auto.
Defined.

(* ================================================================== *)
(** * The depth ramp *)

Lemma set_last_nth (y : list float64) (v : float64) :
  y <> [] ->
  nth_error (set_last y v) (List.length y - 1) = Some v.
Proof.
  intros Hy. unfold set_last. destruct y as [|a y]; [congruence|].
  assert (Hl : List.length (removelast (a :: y)) = (List.length (a :: y) - 1)%nat).
  { pose proof (removelast_shorter a y) as H. simpl List.length in *. lia. }
  rewrite nth_error_app2 by (rewrite Hl; apply Nat.le_refl).
  rewrite Hl, Nat.sub_diag. reflexivity.
Qed.

Lemma np_linspace_last (a b : float64) (num : Z) (ramp : list float64) :
  2 <= num ->
  np_linspace a b num = Ok ramp ->
  nth_error ramp (Z.to_nat num - 1) = Some b.
Proof.
  intros Hn Hr. pose proof (np_linspace_inv _ _ _ _ Hr) as [_ Hlen].
  revert Hr Hlen. unfold np_linspace.
  destruct (Z.ltb_spec num 0) as [|_]; [lia|].
  destruct (Z.ltb_spec 1 num) as [_|]; [|lia].
  intros Hr. injection Hr as <-. intros Hlen.
  rewrite set_last_length in Hlen. rewrite <- Hlen.
  apply set_last_nth. intros E. rewrite E in Hlen. simpl in Hlen. lia.
Qed.

(** The depth ramp ends exactly on its target: with at least two rows, the
    newest row's depth is 350 plus that row's own noise, because
    [np.linspace] stores [stop] in the last position instead of computing
    it from the step. *)
Theorem generated_depth_target
        (w w' : world) (N : Z) (r : ref) (df : DataFrame) :
  2 <= N ->
  _generate_sample_data N w = (Ok r, w') ->
  frame_at w' r = Some df ->
  exists s,
    nth_error df (Z.to_nat N - 1) = Some s /\
    depth_m s
    = add (of_int 350)
          (add (of_int 0)
               (mul (of_int 8)
                    (gauss_tape w (gauss_drawn w + (Z.to_nat N - 1))%nat))).
Proof.
  intros HN Hrun Hdf. rewrite generate_eq in Hrun.
  destruct (Res.mapM (stamp (utc_clock w (clock_reads w))) (range N))
    as [stamps|e] eqn:Es; [|discriminate].
  destruct (np_linspace (of_int 100) (of_int 350) N)
    as [ramp|e] eqn:Er; [|discriminate].
  assert (Hr : r = List.length (heap w)) by congruence.
  assert (Hw : w' = generated_world N w (generated_frame N w stamps ramp))
    by congruence.
  subst r w'. rewrite generated_world_frame in Hdf.
  apply (f_equal (fun o => match o with Some x => x | None => [] end)) in Hdf.
  subst df.
  apply mapM_length in Es. rewrite range_length in Es.
  destruct (nth_error (generated_frame N w stamps ramp) (Z.to_nat N - 1))
    as [s|] eqn:E.
  - exists s. split; [reflexivity|].
    apply generated_frame_row in E as (_ & _ & Hd & _).
    rewrite Hd. apply nth_error_nth. apply map2_nth_error.
    + apply (np_linspace_last (of_int 100)); assumption.
    + apply normal_draws_nth_error. lia.
  - apply nth_error_None in E.
    pose proof (generated_frame_length N w stamps ramp) as HL.
    unfold Datetime.datetime in *. lia.
Qed.

Lemma generated_depth_target_witness :
  exists s,
    generated_row 3 (Demo.world_of [] Last_3_hours) 2 = Some s /\
    depth_m s
    = add (of_int 350) (add (of_int 0) (mul (of_int 8) (Demo.steady_tape 2))).
Proof.
  assert (Hrun : _generate_sample_data 3 (Demo.world_of [] Last_3_hours)
                 = (Ok 0%nat,
                    snd (_generate_sample_data 3 (Demo.world_of [] Last_3_hours))))
    by (vm_compute; reflexivity).
  destruct (frame_at (snd (_generate_sample_data 3 (Demo.world_of [] Last_3_hours)))
                     0%nat) as [df|] eqn:Hdf; [|vm_compute in Hdf; discriminate].
  destruct (generated_depth_target _ _ 3 0%nat df ltac:(lia) Hrun Hdf)
    as (s & Hs & Hd).
  exists s. split; [|exact Hd].
  unfold generated_row. rewrite Hrun, Hdf. exact Hs.
Defined.
